(** * GEO-RISK AI dashboard: shallow embedding of [disaster-warning-system]

    The development follows the source file top-down:

    - the static configuration ([MAP_VIEWS], [MANIPUR_DISTRICTS],
      [CALAMITY_TYPES]);
    - [detectRoadIntersections], the road-alert heuristic;
    - the payload normalisation inside [fetchDisasterData] (module
      [Gateway], over untyped JSON values);
    - the [DisasterWarningSystem] component: its state, its three
      [useEffect] hooks, its event handlers and the render/commit loop that
      runs the effects until their dependency arrays are unchanged.

    JavaScript numbers that hold coordinates are IEEE-754 binary64 values
    ([PrimFloat.float]); risk percentages are integers ([Z]), as in the data
    model of the specification, except in module [Untyped], where the
    statistics of the header are computed on the cells as the normalisation
    delivers them, whatever their [risk_percentage] holds. *)

From Stdlib Require Import ZArith List String Ascii Bool Lia DecimalString.
From Stdlib Require Import Floats.PrimFloat Floats.SpecFloat Floats.FloatOps Floats.FloatAxioms.
From stdpp Require Import gmap strings.
Import ListNotations.

Set Warnings "-inexact-float,-register-all".
Local Open Scope string_scope.

(* ====================================================================== *)
(** ** System configuration *)
(* ====================================================================== *)

(** A map view: [{ center: [lat, lon], zoom }]. *)
Record MapView := { center : float * float; zoom : Z }.

Module MAP_VIEWS.
Definition world   : MapView := {| center := (20, 0)%float;      zoom := 2 |}.
Definition india   : MapView := {| center := (22.5, 79)%float;   zoom := 5 |}.
Definition manipur : MapView := {| center := (24.8, 93.95)%float; zoom := 9 |}.
End MAP_VIEWS.

(** The district table is a JS object used as a map from the district key to
    its view. *)
Definition MANIPUR_DISTRICTS : gmap string MapView :=
  list_to_map
    [ ("Bishnupur",     {| center := (24.6167, 93.7667)%float; zoom := 11 |});
      ("Chandel",       {| center := (24.3167, 94.0167)%float; zoom := 10 |});
      ("Churachandpur", {| center := (24.3333, 93.6667)%float; zoom := 10 |});
      ("ImphalEast",    {| center := (24.7667, 93.9667)%float; zoom := 11 |});
      ("ImphalWest",    {| center := (24.8167, 93.9167)%float; zoom := 11 |});
      ("Jiribam",       {| center := (24.8083, 93.1167)%float; zoom := 11 |});
      ("Kakching",      {| center := (24.4833, 93.9833)%float; zoom := 11 |});
      ("Kamjong",       {| center := (24.8333, 94.4167)%float; zoom := 10 |});
      ("Kangpokpi",     {| center := (25.2167, 93.9833)%float; zoom := 10 |});
      ("Noney",         {| center := (24.9500, 93.6833)%float; zoom := 10 |});
      ("Pherzawl",      {| center := (24.1667, 93.1167)%float; zoom := 10 |});
      ("Senapati",      {| center := (25.2667, 94.0167)%float; zoom := 10 |});
      ("Tamenglong",    {| center := (24.9833, 93.4833)%float; zoom := 10 |});
      ("Tengnoupal",    {| center := (24.3167, 94.1333)%float; zoom := 10 |});
      ("Thoubal",       {| center := (24.6333, 94.0000)%float; zoom := 11 |});
      ("Ukhrul",        {| center := (25.0500, 94.3667)%float; zoom := 10 |}) ].

Module CALAMITY_TYPES.
Definition LANDSLIDE : string := "landslide".
Definition FLOOD     : string := "flood".
End CALAMITY_TYPES.

(* ====================================================================== *)
(** ** Risk cells and road alerts *)
(* ====================================================================== *)

Record Bounds := { minLat : float; minLon : float; maxLat : float; maxLon : float }.

(** A (flattened) risk cell, as pushed on [transformedCells]. *)
Record RiskCell := {
  bounds          : Bounds;
  cal_type        : string;
  risk_percentage : Z;
  updated_at      : string
}.

(** The value of [Math.max(...xs)] on integers: [-Infinity] when [xs] is
    empty, the largest element otherwise. *)
Inductive number := NegInfinity | Num (z : Z).

Definition Math_max (xs : list Z) : number :=
  fold_left
    (fun acc x => match acc with NegInfinity => Num x | Num a => Num (Z.max a x) end)
    xs NegInfinity.

(** A road alert, as pushed on [alerts]. *)
Record RoadAlert := {
  id             : string;
  road           : string;
  severity       : number;
  cells          : list RiskCell;
  message        : string;
  recommendation : string
}.

(** JavaScript's relational operators on numbers. *)
Definition js_gt (a b : float) : bool := PrimFloat.ltb b a.
Definition js_ge (a b : float) : bool := PrimFloat.leb b a.
Definition js_lt (a b : float) : bool := PrimFloat.ltb a b.
Definition js_le (a b : float) : bool := PrimFloat.leb a b.

(* ====================================================================== *)
(** ** Road intersection detection *)
(* ====================================================================== *)

(** [alerts.push(a)] *)
Definition push {A} (xs : list A) (x : A) : list A := xs ++ [x].

Definition detectRoadIntersections
    (riskCells : list RiskCell) (calamityType : string) : list RoadAlert :=
  let alerts : list RoadAlert := [] in
  (* Filter high-risk cells (moderate + high) *)
  let highRiskCells := List.filter (fun cell => (risk_percentage cell >=? 30)%Z) riskCells in
  if (length highRiskCells =? 0)%nat then [] else
  (* Simulate road detection based on geographic clustering *)
  let northernRisk :=
    List.filter (fun c => js_gt (minLat (bounds c)) 24.85) highRiskCells in
  let centralRisk :=
    List.filter (fun c => js_ge (minLat (bounds c)) 24.7 && js_le (minLat (bounds c)) 24.85)
                highRiskCells in
  let southernRisk :=
    List.filter (fun c => js_lt (minLat (bounds c)) 24.7) highRiskCells in
  (* Generate contextual alerts *)
  if String.eqb calamityType CALAMITY_TYPES.LANDSLIDE then
    let alerts :=
      if (0 <? length northernRisk)%nat then
        push alerts
          {| id := "nh2-north";
             road := "NH-2 (Imphal-Senapati Highway)";
             severity := Math_max (map risk_percentage northernRisk);
             cells := northernRisk;
             message := "Hill road section may experience landslide blockage";
             recommendation :=
               "Avoid travel on hill sections. Use alternative valley routes if available." |}
      else alerts in
    let alerts :=
      if (0 <? length centralRisk)%nat then
        push alerts
          {| id := "imphal-central";
             road := "Imphal City Ring Road";
             severity := Math_max (map risk_percentage centralRisk);
             cells := centralRisk;
             message := "Slope-adjacent road sections at risk";
             recommendation := "Monitor conditions. Debris clearance may be required." |}
      else alerts in
    alerts
  else if String.eqb calamityType CALAMITY_TYPES.FLOOD then
    let alerts :=
      if (0 <? length centralRisk)%nat then
        push alerts
          {| id := "imphal-valley";
             road := "Imphal Valley Low-lying Roads";
             severity := Math_max (map risk_percentage centralRisk);
             cells := centralRisk;
             message := "Low-lying areas may experience flooding";
             recommendation := "Seek higher elevation. Avoid crossing flooded sections." |}
      else alerts in
    let alerts :=
      if (0 <? length southernRisk)%nat then
        push alerts
          {| id := "loktak-roads";
             road := "Roads near Loktak Lake";
             severity := Math_max (map risk_percentage southernRisk);
             cells := southernRisk;
             message := "Waterlogging expected in lakeside areas";
             recommendation := "Use elevated bypass routes. Monitor water levels." |}
      else alerts in
    alerts
  else alerts.

(* ====================================================================== *)
(** ** Utility functions of the component *)
(* ====================================================================== *)

Definition getRiskColor (riskPercentage : Z) : string :=
  if (riskPercentage <? 30)%Z then "#22c55e"
  else if (riskPercentage <? 60)%Z then "#f97316"
  else "#ef4444".

Definition getRiskLevel (riskPercentage : Z) : string :=
  if (riskPercentage <? 30)%Z then "Low Risk"
  else if (riskPercentage <? 60)%Z then "Moderate Risk"
  else "High Risk".

(** [const stats = { total, highRisk, moderateRisk, lowRisk }] *)
Record Stats := { total : nat; highRisk : nat; moderateRisk : nat; lowRisk : nat }.

(* ====================================================================== *)
(** ** The reference synthesizer of the specification (section 4.5)

    This definition follows the words of the specification, not the code:
    discard the cells below 30, split the rest in latitude bands, and emit
    one alert per non-empty band of the hazard type, in a fixed order.  It is
    compared with [detectRoadIntersections] below. *)
(* ====================================================================== *)

Module Spec.

Inductive HazardType := Landslide | Flood.
Inductive Band := North | Central | South.

Definition hazard_key (h : HazardType) : string :=
  match h with
  | Landslide => CALAMITY_TYPES.LANDSLIDE
  | Flood => CALAMITY_TYPES.FLOOD
  end.

(** Step 2: the three latitude bands. *)
Definition in_band (b : Band) (c : RiskCell) : bool :=
  let lat := minLat (bounds c) in
  match b with
  | North   => js_gt lat 24.85
  | Central => js_ge lat 24.70 && js_le lat 24.85
  | South   => js_lt lat 24.70
  end.

(** Steps 3 and 4: the bands each hazard type reports on, in order. *)
Definition bands_of (h : HazardType) : list Band :=
  match h with
  | Landslide => [North; Central]
  | Flood     => [Central; South]
  end.

(** [max(riskPercentage)] over a non-empty band. *)
Fixpoint max_risk (first : RiskCell) (rest : list RiskCell) : Z :=
  match rest with
  | [] => risk_percentage first
  | c :: rest' => Z.max (risk_percentage first) (max_risk c rest')
  end.

(** The fixed label, message and recommendation of each alert. *)
Definition label (h : HazardType) (b : Band) : string * string * string * string :=
  match h, b with
  | Landslide, North =>
      ("nh2-north", "NH-2 (Imphal-Senapati Highway)",
       "Hill road section may experience landslide blockage",
       "Avoid travel on hill sections. Use alternative valley routes if available.")
  | Landslide, _ =>
      ("imphal-central", "Imphal City Ring Road",
       "Slope-adjacent road sections at risk",
       "Monitor conditions. Debris clearance may be required.")
  | Flood, South =>
      ("loktak-roads", "Roads near Loktak Lake",
       "Waterlogging expected in lakeside areas",
       "Use elevated bypass routes. Monitor water levels.")
  | Flood, _ =>
      ("imphal-valley", "Imphal Valley Low-lying Roads",
       "Low-lying areas may experience flooding",
       "Seek higher elevation. Avoid crossing flooded sections.")
  end.

Definition alert_of (h : HazardType) (b : Band) (first : RiskCell) (rest : list RiskCell)
  : RoadAlert :=
  let '(i, r, m, rec) := label h b in
  {| id := i; road := r;
     severity := Num (max_risk first rest);
     cells := first :: rest;
     message := m; recommendation := rec |}.

Definition synthesize (cells : list RiskCell) (h : HazardType) : list RoadAlert :=
  (* step 1 *)
  let kept := List.filter (fun c => negb (risk_percentage c <? 30)%Z) cells in
  flat_map
    (fun b =>
       match List.filter (in_band b) kept with
       | [] => []
       | first :: rest => [alert_of h b first rest]
       end)
    (bands_of h).

(** The three risk classes of section 8. *)
Inductive RiskClass := Low | Moderate | High.

Definition class_of_level (level : string) : option RiskClass :=
  if String.eqb level "Low Risk" then Some Low
  else if String.eqb level "Moderate Risk" then Some Moderate
  else if String.eqb level "High Risk" then Some High
  else None.

Definition class_of_color (color : string) : option RiskClass :=
  if String.eqb color "#22c55e" then Some Low
  else if String.eqb color "#f97316" then Some Moderate
  else if String.eqb color "#ef4444" then Some High
  else None.

End Spec.

(* ====================================================================== *)
(** ** Payload normalisation ([fetchDisasterData], the body of [try])

    The response body is an arbitrary JSON value, so this part is untyped:
    property reads, truthiness and [forEach] behave as JavaScript defines
    them on each kind of value. *)
(* ====================================================================== *)

Module Gateway.

Inductive jsval :=
| Undefined
| Null
| Bool (b : bool)
| Number (x : float)
| Str (s : string)
| Array (xs : list jsval)
| Object (props : list (string * jsval)).

Inductive Exception :=
| Error (msg : string)          (* thrown by the code, or a rejected fetch() *)
| TypeError (msg : string)
| SyntaxError (msg : string).   (* response.json() on an unparseable body *)

Definition err_message (e : Exception) : string :=
  match e with Error m | TypeError m | SyntaxError m => m end.

(** Computations of the [try] block: a value, or a thrown exception. *)
Definition Try (A : Type) : Type := Exception + A.
Definition ret {A} (a : A) : Try A := inr a.
Definition throw {A} (e : Exception) : Try A := inl e.
Definition bind {A B} (m : Try A) (k : A -> Try B) : Try B :=
  match m with inl e => inl e | inr a => k a end.

Notation "'do' x <- m ; k" := (bind m (fun x => k))
  (at level 10, x name, m at level 100, k at level 200).

(** ToBoolean. *)
Definition truthy (v : jsval) : bool :=
  match v with
  | Undefined | Null => false
  | Bool b => b
  | Number x => negb (PrimFloat.eqb x 0 || negb (PrimFloat.eqb x x))
  | Str s => negb (String.eqb s "")
  | Array _ | Object _ => true
  end.

Fixpoint lookup_prop (k : string) (props : list (string * jsval)) : option jsval :=
  match props with
  | [] => None
  | (k', v) :: rest => if String.eqb k k' then Some v else lookup_prop k rest
  end.

(** [v.k], for the property names the code reads ([status], [flood],
    [landslide], [bounds], [cal_type], [risk_percentage], [updated_at]):
    none of them exists on the prototypes of primitives, arrays or
    objects, so only an own property of an object yields a value. *)
Definition get (v : jsval) (k : string) : Try jsval :=
  match v with
  | Undefined => throw (TypeError ("Cannot read properties of undefined (reading '" ++ k ++ "')"))
  | Null => throw (TypeError ("Cannot read properties of null (reading '" ++ k ++ "')"))
  | Object props => ret (match lookup_prop k props with Some x => x | None => Undefined end)
  | _ => ret Undefined
  end.

(** [a || b] *)
Definition js_or (a b : jsval) : jsval := if truthy a then a else b.

(** An element of [transformedCells]. *)
Record cell := {
  bounds          : jsval;
  cal_type        : jsval;
  risk_percentage : jsval;
  updated_at      : jsval
}.

(** The callback of [rawCells.forEach], on the accumulated array. *)
Definition expand (transformedCells : list cell) (c : jsval) : Try (list cell) :=
  (* Add flood cell *)
  do flood <- get c "flood" ;
  do transformedCells <-
    (if truthy flood then
       do b <- get c "bounds" ;
       do ct <- get flood "cal_type" ;
       do rp <- get flood "risk_percentage" ;
       do ua <- get flood "updated_at" ;
       ret (push transformedCells
              {| bounds := b; cal_type := ct; risk_percentage := rp; updated_at := ua |})
     else ret transformedCells) ;
  (* Add landslide cell *)
  do landslide <- get c "landslide" ;
  if truthy landslide then
    do b <- get c "bounds" ;
    do ct <- get landslide "cal_type" ;
    do rp <- get landslide "risk_percentage" ;
    do ua <- get landslide "updated_at" ;
    ret (push transformedCells
           {| bounds := b; cal_type := ct; risk_percentage := rp; updated_at := ua |})
  else ret transformedCells.

Fixpoint forEach (xs : list jsval) (transformedCells : list cell) : Try (list cell) :=
  match xs with
  | [] => ret transformedCells
  | c :: rest => do acc <- expand transformedCells c ; forEach rest acc
  end.

(** From [const rawCells = data.status || data || []] to the value passed
    to [setRiskCells]. *)
Definition transform (data : jsval) : Try (list cell) :=
  do status <- get data "status" ;
  let rawCells := js_or (js_or status data) (Array []) in
  match rawCells with
  | Array xs => forEach xs []
  | _ => throw (TypeError "rawCells.forEach is not a function")
  end.

(** What [await fetch(...)] gives: a response, whose body may fail to
    parse. *)
Record Response := { ok : bool; status : Z; json : Try jsval }.

(** The whole [try] block, given what [fetch] settled with. *)
Definition tryBlock (fetched : Try Response) : Try (list cell) :=
  do response <- fetched ;
  if negb (ok response) then
    throw (Error ("API error: " ++ NilZero.string_of_int (Z.to_int (status response))))
  else
    do data <- json response ;
    transform data.

(** The visible result of one fetch: the error banner, if any, and the
    cells handed to [setRiskCells] ([riskCells] is reset to the empty array
    before the request and stays so when the block throws). *)
Definition fetchDisasterData (fetched : Try Response) : option string * list cell :=
  match tryBlock fetched with
  | inr transformedCells => (None, transformedCells)
  | inl err => (Some ("Failed to fetch prediction data: " ++ err_message err), [])
  end.

(** *** Vocabulary of the wire contract (specification, section 6) *)

(** The records of a payload of the expected shape: a bare list, or a
    wrapper object whose [status] field is a list. *)
Definition payload_records (data : jsval) : option (list jsval) :=
  match data with
  | Array xs => Some xs
  | Object props =>
      match lookup_prop "status" props with
      | Some (Array xs) => Some xs
      | _ => None
      end
  | _ => None
  end.

Definition is_object (v : jsval) : bool :=
  match v with Object _ => true | _ => false end.

Definition has_prop (k : string) (v : jsval) : bool :=
  match v with
  | Object props => match lookup_prop k props with Some _ => true | None => false end
  | _ => false
  end.

(** The field [k] of a record ([undefined] when it is missing). *)
Definition field (k : string) (v : jsval) : jsval :=
  match v with
  | Object props => match lookup_prop k props with Some x => x | None => Undefined end
  | _ => Undefined
  end.

(** A hazard sub-record is an object [{cal_type, risk_percentage,
    updated_at}]; it is optional in a record. *)
Definition subrecord_or_absent (k : string) (props : list (string * jsval)) : Prop :=
  match lookup_prop k props with
  | None | Some (Object _) => True
  | Some _ => False
  end.

(** A raw record of the wire contract. *)
Definition raw_record (v : jsval) : Prop :=
  match v with
  | Object props => subrecord_or_absent "flood" props /\ subrecord_or_absent "landslide" props
  | _ => False
  end.

(** The number of hazard sub-records a record carries. *)
Definition subrecords (v : jsval) : nat :=
  (if has_prop "flood" v then 1 else 0) + (if has_prop "landslide" v then 1 else 0).

(** The number of hazard fields of a record that pass the tests
    [if (cell.flood)] and [if (cell.landslide)]. *)
Definition hazards (v : jsval) : nat :=
  (if truthy (field "flood" v) then 1 else 0)
  + (if truthy (field "landslide" v) then 1 else 0).

(** A response that arrived with a success status and a body that parsed
    to [data]. *)
Definition okResponse (data : jsval) : Try Response :=
  ret {| ok := true; status := 200; json := ret data |}.

(** The reading of "records with missing bounds are dropped": the payload
    normalises to what its records with a [bounds] field normalise to. *)
Definition drops_records_without_bounds (records : list jsval) : Prop :=
  transform (Array records) = transform (Array (List.filter (has_prop "bounds") records)).

End Gateway.

(* ====================================================================== *)
(** ** Statistics, labels and warning boxes, on the cells as delivered

    The render compares [cell.risk_percentage] with numbers.  The cells are
    those of the normalisation above, whose [risk_percentage] is whatever
    the sub-record carried (or [undefined]), so each comparison first
    converts the value to a number. *)
(* ====================================================================== *)

Module Untyped.
Import Gateway.

Section Coercion.

(** [ToNumber] of a string, an array or an object is the language's
    string-to-number conversion (after [ToPrimitive], which throws on an
    object whose [toString] is not callable).  It is not modelled: it is a
    parameter of the definitions below. *)
Variable ToNumberOther : jsval -> Try float.

Definition ToNumber (v : jsval) : Try float :=
  match v with
  | Undefined => ret PrimFloat.nan
  | Null => ret 0%float
  | Bool b => ret (if b then 1 else 0)%float
  | Number x => ret x
  | Str _ | Array _ | Object _ => ToNumberOther v
  end.

(** [v >= n] and [v < n], for a number [n]. *)
Definition ge (v : jsval) (n : float) : Try bool :=
  do x <- ToNumber v ; ret (js_ge x n).

Definition lt (v : jsval) (n : float) : Try bool :=
  do x <- ToNumber v ; ret (js_lt x n).

(** [a && b]: [b] is evaluated only when [a] holds. *)
Definition and_also (a b : Try bool) : Try bool :=
  do x <- a ; if x then b else ret false.

(** [cells.filter(p)], the callback being called on each element in
    turn. *)
Fixpoint filterTry (p : cell -> Try bool) (cells : list cell) : Try (list cell) :=
  match cells with
  | [] => ret []
  | c :: rest =>
      do keep <- p c ;
      do kept <- filterTry p rest ;
      ret (if keep then c :: kept else kept)
  end.

(** [const stats = { total, highRisk, moderateRisk, lowRisk }] *)
Definition stats (filteredCells : list cell) : Try Stats :=
  do high <- filterTry (fun c => ge (risk_percentage c) 60) filteredCells ;
  do moderate <-
    filterTry (fun c => and_also (ge (risk_percentage c) 30) (lt (risk_percentage c) 60))
              filteredCells ;
  do low <- filterTry (fun c => lt (risk_percentage c) 30) filteredCells ;
  ret {| total := length filteredCells;
         highRisk := length high;
         moderateRisk := length moderate;
         lowRisk := length low |}.

Definition getRiskLevel (riskPercentage : jsval) : Try string :=
  do low <- lt riskPercentage 30 ;
  if low then ret "Low Risk"
  else
    do moderate <- lt riskPercentage 60 ;
    if moderate then ret "Moderate Risk" else ret "High Risk".

(** The warning boxes of a cell's popup: [cell.risk_percentage >= 60] and
    [cell.risk_percentage >= 30 && cell.risk_percentage < 60]. *)
Definition showsHighRiskBox (c : cell) : Try bool :=
  ge (risk_percentage c) 60.

Definition showsModerateRiskBox (c : cell) : Try bool :=
  and_also (ge (risk_percentage c) 30) (lt (risk_percentage c) 60).

(** *** Vocabulary *)

(** The [risk_percentage] of the cell converts to a number other than
    [NaN]. *)
Definition numeric (c : cell) : Prop :=
  exists x, ToNumber (risk_percentage c) = inr x /\ PrimFloat.is_nan x = false.

(** The number a cell's [risk_percentage] converts to. *)
Definition riskNumber (c : cell) : float :=
  match ToNumber (risk_percentage c) with
  | inr x => x
  | inl _ => PrimFloat.nan
  end.

(** The label of a cell (empty when the conversion throws). *)
Definition labelOf (c : cell) : string :=
  match getRiskLevel (risk_percentage c) with
  | inr level => level
  | inl _ => ""
  end.

(** The three counts add up to the total. *)
Definition counts_add_up (filteredCells : list cell) : Prop :=
  exists s,
    stats filteredCells = inr s
    /\ (highRisk s + moderateRisk s + lowRisk s = total s)%nat.

End Coercion.

(** [riskCells.filter(cell => cell.cal_type === calamityMode)] *)
Definition filteredCells (riskCells : list cell) (calamityMode : string) : list cell :=
  List.filter
    (fun c => match cal_type c with Str s => String.eqb s calamityMode | _ => false end)
    riskCells.

End Untyped.

(* ====================================================================== *)
(** ** The component [DisasterWarningSystem]: state *)
(* ====================================================================== *)

(** One field per [useState] hook.  [lastUpdated] holds the clock reading of
    [new Date()]. *)
Record State := {
  selectedCountry   : string;
  selectedState     : string;
  selectedDistrict  : string;
  riskCells         : list RiskCell;
  roadAlerts        : list RoadAlert;
  calamityMode      : string;
  lastUpdated       : option Z;
  loading           : bool;
  error             : option string;
  mapCenter         : float * float;
  mapZoom           : Z;
  selectedRoadAlert : option RoadAlert
}.

Definition initialState : State :=
  {| selectedCountry := ""; selectedState := ""; selectedDistrict := "";
     riskCells := []; roadAlerts := [];
     calamityMode := CALAMITY_TYPES.LANDSLIDE;
     lastUpdated := None; loading := false; error := None;
     mapCenter := center MAP_VIEWS.world; mapZoom := zoom MAP_VIEWS.world;
     selectedRoadAlert := None |}.

(** The state setters.  Every call in the source passes a value (never an
    updater function), so a queue of calls is the composition of these
    updates and the last call on a hook wins. *)
Definition setSelectedCountry (v : string) (s : State) : State :=
  {| selectedCountry := v; selectedState := selectedState s;
     selectedDistrict := selectedDistrict s; riskCells := riskCells s;
     roadAlerts := roadAlerts s; calamityMode := calamityMode s;
     lastUpdated := lastUpdated s; loading := loading s; error := error s;
     mapCenter := mapCenter s; mapZoom := mapZoom s;
     selectedRoadAlert := selectedRoadAlert s |}.

Definition setSelectedState (v : string) (s : State) : State :=
  {| selectedCountry := selectedCountry s; selectedState := v;
     selectedDistrict := selectedDistrict s; riskCells := riskCells s;
     roadAlerts := roadAlerts s; calamityMode := calamityMode s;
     lastUpdated := lastUpdated s; loading := loading s; error := error s;
     mapCenter := mapCenter s; mapZoom := mapZoom s;
     selectedRoadAlert := selectedRoadAlert s |}.

Definition setSelectedDistrict (v : string) (s : State) : State :=
  {| selectedCountry := selectedCountry s; selectedState := selectedState s;
     selectedDistrict := v; riskCells := riskCells s;
     roadAlerts := roadAlerts s; calamityMode := calamityMode s;
     lastUpdated := lastUpdated s; loading := loading s; error := error s;
     mapCenter := mapCenter s; mapZoom := mapZoom s;
     selectedRoadAlert := selectedRoadAlert s |}.

Definition setRiskCells (v : list RiskCell) (s : State) : State :=
  {| selectedCountry := selectedCountry s; selectedState := selectedState s;
     selectedDistrict := selectedDistrict s; riskCells := v;
     roadAlerts := roadAlerts s; calamityMode := calamityMode s;
     lastUpdated := lastUpdated s; loading := loading s; error := error s;
     mapCenter := mapCenter s; mapZoom := mapZoom s;
     selectedRoadAlert := selectedRoadAlert s |}.

Definition setRoadAlerts (v : list RoadAlert) (s : State) : State :=
  {| selectedCountry := selectedCountry s; selectedState := selectedState s;
     selectedDistrict := selectedDistrict s; riskCells := riskCells s;
     roadAlerts := v; calamityMode := calamityMode s;
     lastUpdated := lastUpdated s; loading := loading s; error := error s;
     mapCenter := mapCenter s; mapZoom := mapZoom s;
     selectedRoadAlert := selectedRoadAlert s |}.

Definition setCalamityMode (v : string) (s : State) : State :=
  {| selectedCountry := selectedCountry s; selectedState := selectedState s;
     selectedDistrict := selectedDistrict s; riskCells := riskCells s;
     roadAlerts := roadAlerts s; calamityMode := v;
     lastUpdated := lastUpdated s; loading := loading s; error := error s;
     mapCenter := mapCenter s; mapZoom := mapZoom s;
     selectedRoadAlert := selectedRoadAlert s |}.

Definition setLastUpdated (v : option Z) (s : State) : State :=
  {| selectedCountry := selectedCountry s; selectedState := selectedState s;
     selectedDistrict := selectedDistrict s; riskCells := riskCells s;
     roadAlerts := roadAlerts s; calamityMode := calamityMode s;
     lastUpdated := v; loading := loading s; error := error s;
     mapCenter := mapCenter s; mapZoom := mapZoom s;
     selectedRoadAlert := selectedRoadAlert s |}.

Definition setLoading (v : bool) (s : State) : State :=
  {| selectedCountry := selectedCountry s; selectedState := selectedState s;
     selectedDistrict := selectedDistrict s; riskCells := riskCells s;
     roadAlerts := roadAlerts s; calamityMode := calamityMode s;
     lastUpdated := lastUpdated s; loading := v; error := error s;
     mapCenter := mapCenter s; mapZoom := mapZoom s;
     selectedRoadAlert := selectedRoadAlert s |}.

Definition setError (v : option string) (s : State) : State :=
  {| selectedCountry := selectedCountry s; selectedState := selectedState s;
     selectedDistrict := selectedDistrict s; riskCells := riskCells s;
     roadAlerts := roadAlerts s; calamityMode := calamityMode s;
     lastUpdated := lastUpdated s; loading := loading s; error := v;
     mapCenter := mapCenter s; mapZoom := mapZoom s;
     selectedRoadAlert := selectedRoadAlert s |}.

Definition setMapCenter (v : float * float) (s : State) : State :=
  {| selectedCountry := selectedCountry s; selectedState := selectedState s;
     selectedDistrict := selectedDistrict s; riskCells := riskCells s;
     roadAlerts := roadAlerts s; calamityMode := calamityMode s;
     lastUpdated := lastUpdated s; loading := loading s; error := error s;
     mapCenter := v; mapZoom := mapZoom s;
     selectedRoadAlert := selectedRoadAlert s |}.

Definition setMapZoom (v : Z) (s : State) : State :=
  {| selectedCountry := selectedCountry s; selectedState := selectedState s;
     selectedDistrict := selectedDistrict s; riskCells := riskCells s;
     roadAlerts := roadAlerts s; calamityMode := calamityMode s;
     lastUpdated := lastUpdated s; loading := loading s; error := error s;
     mapCenter := mapCenter s; mapZoom := v;
     selectedRoadAlert := selectedRoadAlert s |}.

Definition setSelectedRoadAlert (v : option RoadAlert) (s : State) : State :=
  {| selectedCountry := selectedCountry s; selectedState := selectedState s;
     selectedDistrict := selectedDistrict s; riskCells := riskCells s;
     roadAlerts := roadAlerts s; calamityMode := calamityMode s;
     lastUpdated := lastUpdated s; loading := loading s; error := error s;
     mapCenter := mapCenter s; mapZoom := mapZoom s;
     selectedRoadAlert := v |}.

(** A queue of setter calls, in program order. *)
Definition Updates : Type := State -> State.
Definition nothing : Updates := fun q => q.
Definition andThen (u1 u2 : Updates) : Updates := fun q => u2 (u1 q).
Notation "u1 >>> u2" := (andThen u1 u2) (at level 62, left associativity).

(** [const filteredCells = riskCells.filter(cell => cell.cal_type === calamityMode)] *)
Definition filteredCells (s : State) : list RiskCell :=
  List.filter (fun cell => String.eqb (cal_type cell) (calamityMode s)) (riskCells s).

(* ====================================================================== *)
(** ** The three effects

    An effect reads the values of the render it was created in ([r]) and
    queues updates. *)
(* ====================================================================== *)

(** Handle country selection; dependencies [[selectedCountry]]. *)
Definition countryEffect (r : State) : Updates :=
  if String.eqb (selectedCountry r) "India" then
    setMapCenter (center MAP_VIEWS.india) >>>
    setMapZoom (zoom MAP_VIEWS.india)
  else if String.eqb (selectedCountry r) "" then
    setMapCenter (center MAP_VIEWS.world) >>>
    setMapZoom (zoom MAP_VIEWS.world) >>>
    setSelectedState "" >>>
    setSelectedDistrict "" >>>
    setRiskCells [] >>>
    setRoadAlerts []
  else nothing.

(** Handle state selection; dependencies [[selectedState, selectedCountry]]. *)
Definition stateEffect (r : State) : Updates :=
  if String.eqb (selectedState r) "Manipur" then
    setMapCenter (center MAP_VIEWS.manipur) >>>
    setMapZoom (zoom MAP_VIEWS.manipur)
  else if String.eqb (selectedState r) "" && String.eqb (selectedCountry r) "India" then
    setMapCenter (center MAP_VIEWS.india) >>>
    setMapZoom (zoom MAP_VIEWS.india) >>>
    setSelectedDistrict "" >>>
    setRiskCells [] >>>
    setRoadAlerts []
  else nothing.

(** Regenerate road alerts; dependencies
    [[filteredCells.length, calamityMode]]. *)
Definition alertsEffect (r : State) : Updates :=
  if (0 <? length (filteredCells r))%nat then
    let alerts := detectRoadIntersections (filteredCells r) (calamityMode r) in
    setRoadAlerts alerts
  else
    setRoadAlerts [].

(** The dependency arrays of one render. *)
Record Deps := {
  countryDeps : string;
  stateDeps   : string * string;
  alertsDeps  : nat * string
}.

Definition depsOf (r : State) : Deps :=
  {| countryDeps := selectedCountry r;
     stateDeps   := (selectedState r, selectedCountry r);
     alertsDeps  := (length (filteredCells r), calamityMode r) |}.

Definition sameCountryDeps (a b : string) : bool := String.eqb a b.
Definition sameStateDeps (a b : string * string) : bool :=
  String.eqb (fst a) (fst b) && String.eqb (snd a) (snd b).
Definition sameAlertsDeps (a b : nat * string) : bool :=
  (fst a =? fst b)%nat && String.eqb (snd a) (snd b).

Definition sameDeps (a b : Deps) : bool :=
  sameCountryDeps (countryDeps a) (countryDeps b)
  && sameStateDeps (stateDeps a) (stateDeps b)
  && sameAlertsDeps (alertsDeps a) (alertsDeps b).

(** An effect runs after a render when the component has just mounted
    ([prev = None]) or one of its dependencies differs from the previous
    render. *)
Definition runIf {A} (same : A -> A -> bool) (field : Deps -> A)
    (prev : option Deps) (r : State) (effect : State -> Updates) : Updates :=
  match prev with
  | Some d => if same (field d) (field (depsOf r)) then nothing else effect r
  | None => effect r
  end.

(** One commit: the effects whose dependencies changed run in the order of
    their declaration, all on the values of render [r]; their updates are
    applied together and give the state of the next render. *)
Definition commit (prev : option Deps) (r : State) : State :=
  (runIf sameCountryDeps countryDeps prev r countryEffect >>>
   runIf sameStateDeps stateDeps prev r stateEffect >>>
   runIf sameAlertsDeps alertsDeps prev r alertsEffect) r.

Definition noEffectDue (prev : option Deps) (r : State) : bool :=
  match prev with
  | Some d => sameDeps d (depsOf r)
  | None => false
  end.

(** Render, commit and render again until no effect is due.  [fuel] bounds
    the number of nested renders. *)
Fixpoint settle (fuel : nat) (prev : option Deps) (r : State) : State * option Deps :=
  if noEffectDue prev r then (r, prev)
  else match fuel with
       | O => (r, prev)
       | S fuel' => settle fuel' (Some (depsOf r)) (commit prev r)
       end.

(** React gives up after 50 nested updates. *)
Definition NESTED_UPDATE_LIMIT : nat := 50.

(* ====================================================================== *)
(** ** Events and handlers *)
(* ====================================================================== *)

(** What the [try] block of a request ended with: the normalised cells, or
    a thrown error and its message. *)
Inductive FetchResult :=
| Fulfilled (transformedCells : list RiskCell)
| Rejected (message : string).

Inductive Event :=
| CountryChange (value : string)          (* onChange of the country select *)
| StateChange (value : string)            (* onChange of the state select *)
| DistrictChange (value : string)         (* handleDistrictChange *)
| ModeClick (mode : string)               (* the two calamity-mode buttons *)
| RoadAlertClick (alert : RoadAlert)      (* handleRoadAlertClick *)
| FetchSettled (request : nat) (result : FetchResult) (now : Z).

(** The component with its environment: the dependency arrays of the last
    commit and the requests in flight, each with its [districtParam]. *)
Record World := {
  ui          : State;
  committed   : option Deps;
  inflight    : gmap nat string;
  nextRequest : nat
}.

(** [district.replace(/\s+/g, '')], on the ASCII white space characters. *)
Definition isSpace (a : ascii) : bool :=
  match nat_of_ascii a with
  | 9 | 10 | 11 | 12 | 13 | 32 => true
  | _ => false
  end.

Fixpoint removeWhitespace (s : string) : string :=
  match s with
  | EmptyString => EmptyString
  | String a rest =>
      if isSpace a then removeWhitespace rest else String a (removeWhitespace rest)
  end.

(** [fetchDisasterData], up to the first [await]. *)
Definition fetchDisasterData_start : Updates :=
  setLoading true >>>
  setError None >>>
  setRiskCells [] >>>
  setRoadAlerts [].

(** [fetchDisasterData], from the end of the [try] block on: the updates
    after a normal completion, the [catch] clause after a throw, and
    [finally].  [MANIPUR_DISTRICTS[districtParam]] is read as the lookup of
    an own key of the table, which it is for the names the district select
    offers. *)
Definition fetchDisasterData_finish
    (districtParam : string) (result : FetchResult) (now : Z) : Updates :=
  (match result with
   | Fulfilled transformedCells =>
       setRiskCells transformedCells >>>
       setLastUpdated (Some now) >>>
       (* Update map view to district *)
       match MANIPUR_DISTRICTS !! districtParam with
       | Some view => setMapCenter (center view) >>> setMapZoom (zoom view)
       | None => nothing
       end
   | Rejected message =>
       setError (Some ("Failed to fetch prediction data: " ++ message))
   end) >>>
  setLoading false.

Definition handleDistrictChange (district : string) (w : World) : World :=
  if negb (String.eqb district "") then
    {| ui := (setSelectedDistrict district >>> fetchDisasterData_start) (ui w);
       committed := committed w;
       inflight := <[nextRequest w := removeWhitespace district]> (inflight w);
       nextRequest := S (nextRequest w) |}
  else
    {| ui := (setSelectedDistrict district >>>
              setRiskCells [] >>>
              setRoadAlerts [] >>>
              setMapCenter (center MAP_VIEWS.manipur) >>>
              setMapZoom (zoom MAP_VIEWS.manipur)) (ui w);
       committed := committed w;
       inflight := inflight w;
       nextRequest := nextRequest w |}.

Definition midpoint (a b : float) : float := ((a + b) / 2)%float.

Definition handleRoadAlertClick (alert : RoadAlert) : Updates :=
  setSelectedRoadAlert (Some alert) >>>
  (* Center map on first affected cell *)
  match cells alert with
  | cell :: _ =>
      let centerLat := midpoint (minLat (bounds cell)) (maxLat (bounds cell)) in
      let centerLon := midpoint (minLon (bounds cell)) (maxLon (bounds cell)) in
      setMapCenter (centerLat, centerLon) >>>
      setMapZoom 12
  | [] => nothing
  end.

Definition withUi (u : Updates) (w : World) : World :=
  {| ui := u (ui w); committed := committed w;
     inflight := inflight w; nextRequest := nextRequest w |}.

(** The updates an event queues before the next render. *)
Definition handle (w : World) (e : Event) : World :=
  match e with
  | CountryChange value => withUi (setSelectedCountry value) w
  | StateChange value => withUi (setSelectedState value) w
  | DistrictChange value => handleDistrictChange value w
  | ModeClick mode => withUi (setCalamityMode mode) w
  | RoadAlertClick alert => withUi (handleRoadAlertClick alert) w
  | FetchSettled request result now =>
      match inflight w !! request with
      | Some districtParam =>
          {| ui := fetchDisasterData_finish districtParam result now (ui w);
             committed := committed w;
             inflight := delete request (inflight w);
             nextRequest := nextRequest w |}
      | None => w
      end
  end.

Definition rerender (w : World) : World :=
  let '(r, d) := settle NESTED_UPDATE_LIMIT (committed w) (ui w) in
  {| ui := r; committed := d; inflight := inflight w; nextRequest := nextRequest w |}.

(** One event, processed to quiescence. *)
Definition step (w : World) (e : Event) : World := rerender (handle w e).

(** The component after mounting: every effect runs once. *)
Definition mount : World :=
  rerender {| ui := initialState; committed := None; inflight := ∅; nextRequest := 0 |}.

Definition run (w : World) (events : list Event) : World := fold_left step events w.

(** No effect is due: the world is at rest between two events. *)
Definition settled (w : World) : Prop := committed w = Some (depsOf (ui w)).

(** The events the rendered page can produce: the selects offer fixed
    options, the state and district selects are disabled until their parent
    is chosen, the mode buttons and alert cards are rendered for a selected
    district, and only a request in flight can settle. *)
Definition offered (w : World) (e : Event) : Prop :=
  match e with
  | CountryChange value => value = "" \/ value = "India"
  | StateChange value =>
      selectedCountry (ui w) <> "" /\ (value = "" \/ value = "Manipur")
  | DistrictChange value =>
      selectedState (ui w) <> "" /\ (value = "" \/ is_Some (MANIPUR_DISTRICTS !! value))
  | ModeClick mode =>
      selectedDistrict (ui w) <> ""
      /\ (mode = CALAMITY_TYPES.LANDSLIDE \/ mode = CALAMITY_TYPES.FLOOD)
  | RoadAlertClick alert => In alert (roadAlerts (ui w))
  | FetchSettled request _ _ => is_Some (inflight w !! request)
  end.

Inductive reachable : World -> Prop :=
| reachable_mount : reachable mount
| reachable_step w e : reachable w -> offered w e -> reachable (step w e).

(** Every event of a trace is offered when its turn comes. *)
Fixpoint offered_all (w : World) (events : list Event) : Prop :=
  match events with
  | [] => True
  | e :: rest => offered w e /\ offered_all (step w e) rest
  end.


Definition selection (w : World) : string * string * string :=
  (selectedCountry (ui w), selectedState (ui w), selectedDistrict (ui w)).

Definition viewState (w : World) : (float * float) * Z :=
  (mapCenter (ui w), mapZoom (ui w)).

(* ====================================================================== *)
(** ** Provenance of a normalised cell *)
(* ====================================================================== *)

(** [c] is the cell of the hazard field [k] of record [r]: it carries the
    record's [bounds] and the three fields of that sub-record. *)
Definition cell_of_field (r : Gateway.jsval) (k : string) (c : Gateway.cell) : Prop :=
  Gateway.truthy (Gateway.field k r) = true
  /\ Gateway.bounds c = Gateway.field "bounds" r
  /\ Gateway.cal_type c = Gateway.field "cal_type" (Gateway.field k r)
  /\ Gateway.risk_percentage c = Gateway.field "risk_percentage" (Gateway.field k r)
  /\ Gateway.updated_at c = Gateway.field "updated_at" (Gateway.field k r).

Definition cell_of_record (r : Gateway.jsval) (c : Gateway.cell) : Prop :=
  cell_of_field r "flood" c \/ cell_of_field r "landslide" c.

(** The three selects of the navigation bar. *)
Definition isNavigation (e : Event) : bool :=
  match e with
  | CountryChange _ | StateChange _ | DistrictChange _ => true
  | _ => false
  end.

(** The fields no effect writes. *)
Definition outsideEffects (s : State)
  : string * string * option Z * bool * option string * option RoadAlert :=
  (selectedCountry s, calamityMode s, lastUpdated s, loading s, error s,
   selectedRoadAlert s).

(** The loading indicator is backed by a request. *)
Definition loadingHasRequest (w : World) : Prop :=
  loading (ui w) = true -> inflight w <> ∅.

(** The shapes the navigation selection can take: nothing, India alone, or
    India and Manipur with no district or one of the table. *)
Definition wellNested (w : World) : Prop :=
  selection w = ("", "", "")
  \/ selection w = ("India", "", "")
  \/ exists district,
       selection w = ("India", "Manipur", district)
       /\ (district = "" \/ is_Some (MANIPUR_DISTRICTS !! district)).


(** The values on which a property read throws. *)
Definition nullish (r : Gateway.jsval) : bool :=
  match r with Gateway.Null | Gateway.Undefined => true | _ => false end.

(* ====================================================================== *)
(** ** What the render derives from the state *)
(* ====================================================================== *)

(** The label of a district option:
    [district.replace(/([A-Z])/g, ' $1').trim()], on ASCII strings. *)
Definition isUpper (a : ascii) : bool :=
  (65 <=? nat_of_ascii a)%nat && (nat_of_ascii a <=? 90)%nat.

Fixpoint spaceBeforeCapitals (s : string) : string :=
  match s with
  | EmptyString => EmptyString
  | String a rest =>
      if isUpper a then String " " (String a (spaceBeforeCapitals rest))
      else String a (spaceBeforeCapitals rest)
  end.

Fixpoint trimStart (s : string) : string :=
  match s with
  | EmptyString => EmptyString
  | String a rest => if isSpace a then trimStart rest else s
  end.

Fixpoint trimEnd (s : string) : string :=
  match s with
  | EmptyString => EmptyString
  | String a rest =>
      let rest' := trimEnd rest in
      if isSpace a && String.eqb rest' "" then EmptyString else String a rest'
  end.

Definition trim (s : string) : string := trimEnd (trimStart s).

Definition districtLabel (district : string) : string :=
  trim (spaceBeforeCapitals district).

(** Whether the rectangle of [cell] is drawn highlighted:
    [selectedRoadAlert && selectedRoadAlert.cells.some(c =>
       c.bounds.minLat === cell.bounds.minLat &&
       c.bounds.minLon === cell.bounds.minLon)]. *)
Definition isHighlighted (s : State) (cell : RiskCell) : bool :=
  match selectedRoadAlert s with
  | Some alert =>
      existsb
        (fun c =>
           PrimFloat.eqb (minLat (bounds c)) (minLat (bounds cell))
           && PrimFloat.eqb (minLon (bounds c)) (minLon (bounds cell)))
        (cells alert)
  | None => false
  end.

(* ====================================================================== *)
(** ** Sample data

    Concrete payloads, cells and event traces on which the properties below
    are evaluated. *)
(* ====================================================================== *)

Module Samples.
Import Gateway.

(** The record of end-to-end scenario 2 of the specification. *)
Definition imphalWestRecord : jsval :=
  Object
    [ ("bounds", Object [ ("minLat", Number 24.78); ("minLon", Number 93.91);
                          ("maxLat", Number 24.83); ("maxLon", Number 93.96) ]);
      ("landslide", Object [ ("cal_type", Str "landslide");
                             ("risk_percentage", Number 72);
                             ("updated_at", Str "2025-01-01T00:00:00Z") ]) ].

(** A record with both sub-records. *)
Definition bothHazardsRecord : jsval :=
  Object
    [ ("bounds", Object [ ("minLat", Number 24.60); ("minLon", Number 93.75);
                          ("maxLat", Number 24.65); ("maxLon", Number 93.80) ]);
      ("flood", Object [ ("cal_type", Str "flood");
                         ("risk_percentage", Number 55);
                         ("updated_at", Str "2025-01-01T00:00:00Z") ]);
      ("landslide", Object [ ("cal_type", Str "landslide");
                             ("risk_percentage", Number 12);
                             ("updated_at", Str "2025-01-01T00:00:00Z") ]) ].

(** A record with no sub-record. *)
Definition emptyRecord : jsval :=
  Object
    [ ("bounds", Object [ ("minLat", Number 24.60); ("minLon", Number 93.75);
                          ("maxLat", Number 24.65); ("maxLon", Number 93.80) ]) ].

(** A record whose [bounds] field is missing. *)
Definition recordWithoutBounds : jsval :=
  Object
    [ ("flood", Object [ ("cal_type", Str "flood");
                         ("risk_percentage", Number 48);
                         ("updated_at", Str "2025-01-01T00:00:00Z") ]) ].

Definition sampleRecords : list jsval :=
  [imphalWestRecord; bothHazardsRecord; emptyRecord].

(** The same records as a wrapper object. *)
Definition wrappedPayload : jsval := Object [ ("status", Array sampleRecords) ].

(** A body that is neither a list nor a wrapper with a list. *)
Definition messagePayload : jsval := Object [ ("message", Str "no data") ].

(** A record whose landslide sub-record carries no [risk_percentage], and
    the cell it normalises to. *)
Definition recordWithoutRisk : jsval :=
  Object
    [ ("bounds", Object [ ("minLat", Number 24.78); ("minLon", Number 93.91);
                          ("maxLat", Number 24.83); ("maxLon", Number 93.96) ]);
      ("landslide", Object [ ("cal_type", Str "landslide");
                             ("updated_at", Str "2025-01-01T00:00:00Z") ]) ].

Definition cellWithoutRisk : cell :=
  {| bounds := field "bounds" recordWithoutRisk;
     cal_type := Str "landslide";
     risk_percentage := Undefined;
     updated_at := Str "2025-01-01T00:00:00Z" |}.

(** Three cells with a numeric risk, one of each class. *)
Definition numericCells : list cell :=
  [ {| bounds := field "bounds" imphalWestRecord; cal_type := Str "landslide";
       risk_percentage := Number 72; updated_at := Str "2025-01-01T00:00:00Z" |};
    {| bounds := field "bounds" imphalWestRecord; cal_type := Str "landslide";
       risk_percentage := Number 40; updated_at := Str "2025-01-01T00:00:00Z" |};
    {| bounds := field "bounds" imphalWestRecord; cal_type := Str "landslide";
       risk_percentage := Number 12.5; updated_at := Str "2025-01-01T00:00:00Z" |} ].

(** A conversion of strings, arrays and objects that always throws; no
    sample below holds such a value. *)
Definition noConversion (v : jsval) : Try float :=
  throw (TypeError "Cannot convert object to primitive value").

End Samples.

Module Scenarios.

(** Two landslide cells of the same district grid, one in the northern
    band and one in the central band. *)
Definition northCell : RiskCell :=
  {| bounds := {| minLat := 24.90; minLon := 93.90; maxLat := 24.95; maxLon := 93.95 |};
     cal_type := "landslide"; risk_percentage := 72;
     updated_at := "2025-01-01T00:00:00Z" |}.

Definition centralCell : RiskCell :=
  {| bounds := {| minLat := 24.78; minLon := 93.91; maxLat := 24.83; maxLon := 93.96 |};
     cal_type := "landslide"; risk_percentage := 40;
     updated_at := "2025-01-01T00:00:00Z" |}.

Definition northAlert : RoadAlert :=
  {| id := "nh2-north";
     road := "NH-2 (Imphal-Senapati Highway)";
     severity := Num 72;
     cells := [northCell];
     message := "Hill road section may experience landslide blockage";
     recommendation :=
       "Avoid travel on hill sections. Use alternative valley routes if available." |}.

(** The user opens India, then Manipur. *)
Definition toManipur : list Event :=
  [CountryChange "India"; StateChange "Manipur"].

(** The user picks Imphal West and, before its request settles, Thoubal:
    requests 0 and 1 are both in flight. *)
Definition twoInFlight : list Event :=
  toManipur ++ [DistrictChange "ImphalWest"; DistrictChange "Thoubal"].

(** Both requests settle, in the order they were issued; each carries one
    landslide cell. *)
Definition bothSettle : list Event :=
  twoInFlight ++ [FetchSettled 0 (Fulfilled [northCell]) 1700000000;
                  FetchSettled 1 (Fulfilled [centralCell]) 1700000001].

End Scenarios.

(* ====================================================================== *)
(** ** Readings of the ordering requirement (specification, section 5) *)
(* ====================================================================== *)



(** The road alerts are those of the cells on display. *)
Definition alerts_fresh (w : World) : Prop :=
  roadAlerts (ui w)
  = detectRoadIntersections (filteredCells (ui w)) (calamityMode (ui w)).

(* ====================================================================== *)
(** * Properties *)
(* ====================================================================== *)

(** ** Risk classes and aggregate counts *)

Lemma getRiskLevel_cases (p : Z) :
  (p < 30 /\ getRiskLevel p = "Low Risk" /\ getRiskColor p = "#22c55e")%Z
  \/ (30 <= p < 60 /\ getRiskLevel p = "Moderate Risk" /\ getRiskColor p = "#f97316")%Z
  \/ (60 <= p /\ getRiskLevel p = "High Risk" /\ getRiskColor p = "#ef4444")%Z.
Proof.
  unfold getRiskLevel, getRiskColor.
  destruct (Z.ltb_spec p 30); [left; auto|].
  destruct (Z.ltb_spec p 60); [right; left; auto with zarith|].
  right; right; auto.
Qed.

(** C8. For every risk percentage [p] the level (and the colour, which
    follows the same thresholds) is Low exactly when [p < 30], Moderate
    exactly when [30 <= p < 60] and High exactly when [p >= 60]; hence every
    value, in particular every value of [0..100], falls in exactly one
    class. *)
Theorem getRiskLevel_partition (p : Z) :
  (Spec.class_of_level (getRiskLevel p) = Some Spec.Low <-> (p < 30)%Z)
  /\ (Spec.class_of_level (getRiskLevel p) = Some Spec.Moderate <-> (30 <= p < 60)%Z)
  /\ (Spec.class_of_level (getRiskLevel p) = Some Spec.High <-> (60 <= p)%Z)
  /\ Spec.class_of_color (getRiskColor p) = Spec.class_of_level (getRiskLevel p).
Proof.
  destruct (getRiskLevel_cases p) as [(Hp & -> & ->) | [(Hp & -> & ->) | (Hp & -> & ->)]];
    cbn; repeat split; intros; try lia; try discriminate; reflexivity.
Qed.

(** *** Order of binary64 numbers against the thresholds 30 and 60 *)

Module FloatOrder.

Lemma not_nan (x : float) : PrimFloat.is_nan x = false -> Prim2SF x <> S754_nan.
Proof.
  unfold PrimFloat.is_nan. rewrite FloatAxioms.eqb_spec. intros H Hn.
  rewrite Hn in H. discriminate.
Qed.

(** Against a positive finite number, [<] is the negation of [>=]. *)
Lemma SFltb_SFleb (f : spec_float) (m : positive) (e : Z) :
  f <> S754_nan ->
  SFltb f (S754_finite false m e) = negb (SFleb (S754_finite false m e) f).
Proof.
  intros Hn. unfold SFltb, SFleb.
  destruct f as [s|s| |s m' e']; try congruence; cbn.
  - reflexivity.
  - now destruct s.
  - destruct s; [reflexivity|].
    rewrite (Z.compare_antisym e' e). destruct (Z.compare e' e); cbn; try reflexivity.
    change (Pos.compare_cont Eq m m') with (Pos.compare_cont (CompOpp Eq) m m').
    rewrite <- (Pos.compare_cont_antisym m' m Eq).
    now destruct (Pos.compare_cont Eq m' m).
Qed.

(** What is at least a positive finite number is at least the number with
    the same mantissa and a smaller exponent. *)
Lemma SFleb_smaller (f : spec_float) (m : positive) (e e' : Z) :
  (e' < e)%Z ->
  SFleb (S754_finite false m e) f = true ->
  SFleb (S754_finite false m e') f = true.
Proof.
  intros He. unfold SFleb.
  destruct f as [s|s| |s m2 e2]; cbn; try (intros; assumption).
  destruct s; [intros; assumption|].
  destruct (Z.compare_spec e e2) as [Heq|Hlt|Hgt]; try discriminate.
  - intros _. assert (Hc : (e' ?= e2)%Z = Lt) by (apply Z.compare_lt_iff; lia).
    now rewrite Hc.
  - intros _. assert (Hc : (e' ?= e2)%Z = Lt) by (apply Z.compare_lt_iff; lia).
    now rewrite Hc.
Qed.

Lemma lt_30 (x : float) :
  PrimFloat.is_nan x = false -> js_lt x 30 = negb (js_ge x 30).
Proof.
  intros Hx. unfold js_lt, js_ge. rewrite ltb_spec, leb_spec.
  change (Prim2SF 30) with (S754_finite false 8444249301319680 (-48)).
  apply SFltb_SFleb. now apply not_nan.
Qed.

Lemma lt_60 (x : float) :
  PrimFloat.is_nan x = false -> js_lt x 60 = negb (js_ge x 60).
Proof.
  intros Hx. unfold js_lt, js_ge. rewrite ltb_spec, leb_spec.
  change (Prim2SF 60) with (S754_finite false 8444249301319680 (-47)).
  apply SFltb_SFleb. now apply not_nan.
Qed.

Lemma ge_60_30 (x : float) : js_ge x 60 = true -> js_ge x 30 = true.
Proof.
  unfold js_ge. rewrite !leb_spec.
  change (Prim2SF 60) with (S754_finite false 8444249301319680 (-47)).
  change (Prim2SF 30) with (S754_finite false 8444249301319680 (-48)).
  apply SFleb_smaller. lia.
Qed.

(** A number other than [NaN] passes exactly one of the three tests. *)
Lemma three_ranges (x : float) :
  PrimFloat.is_nan x = false ->
  (js_ge x 60 = true /\ js_ge x 30 = true /\ js_lt x 60 = false /\ js_lt x 30 = false)
  \/ (js_ge x 60 = false /\ js_ge x 30 = true /\ js_lt x 60 = true /\ js_lt x 30 = false)
  \/ (js_ge x 60 = false /\ js_ge x 30 = false /\ js_lt x 60 = true /\ js_lt x 30 = true).
Proof.
  intros Hx. rewrite (lt_30 x Hx), (lt_60 x Hx).
  destruct (js_ge x 60) eqn:H60.
  - rewrite (ge_60_30 x H60). left. repeat split.
  - destruct (js_ge x 30); [right; left|right; right]; repeat split.
Qed.

End FloatOrder.

(** *** The counters of the header *)

Module UntypedFacts.
Import Gateway.

Lemma filterTry_pure
    (p : cell -> Try bool) (q : cell -> bool) (cells : list cell) :
  Forall (fun c => p c = inr (q c)) cells ->
  Untyped.filterTry p cells = inr (List.filter q cells).
Proof.
  induction 1 as [|c cells Hc _ IH]; [reflexivity|].
  cbn [Untyped.filterTry List.filter]. rewrite Hc, IH. cbn [bind ret].
  unfold ret. now destruct (q c).
Qed.

Lemma count_three (q1 q2 q3 : cell -> bool) (cells : list cell) :
  Forall (fun c => (q1 c = true /\ q2 c = false /\ q3 c = false)
                   \/ (q1 c = false /\ q2 c = true /\ q3 c = false)
                   \/ (q1 c = false /\ q2 c = false /\ q3 c = true)) cells ->
  (length (List.filter q1 cells) + length (List.filter q2 cells)
   + length (List.filter q3 cells) = length cells)%nat.
Proof.
  induction 1 as [|c cells Hc _ IH]; [reflexivity|].
  cbn [List.filter].
  destruct Hc as [(-> & -> & ->) | [(-> & -> & ->) | (-> & -> & ->)]]; cbn [length]; lia.
Qed.

Section Coercion.

Variable ToNumberOther : jsval -> Try float.

Abbreviation numeric := (Untyped.numeric ToNumberOther).
Abbreviation riskNumber := (Untyped.riskNumber ToNumberOther).

Lemma numeric_number (c : cell) :
  numeric c ->
  Untyped.ToNumber ToNumberOther (risk_percentage c) = inr (riskNumber c)
  /\ PrimFloat.is_nan (riskNumber c) = false.
Proof.
  intros (x & Hx & Hnan). unfold Untyped.riskNumber. now rewrite Hx.
Qed.

(** On a numeric cell the tests of the render do not throw and are the
    comparisons of its number. *)
Lemma numeric_tests (c : cell) :
  numeric c ->
  Untyped.ge ToNumberOther (risk_percentage c) 60 = inr (js_ge (riskNumber c) 60)
  /\ Untyped.and_also (Untyped.ge ToNumberOther (risk_percentage c) 30)
                      (Untyped.lt ToNumberOther (risk_percentage c) 60)
     = inr (js_ge (riskNumber c) 30 && js_lt (riskNumber c) 60)
  /\ Untyped.lt ToNumberOther (risk_percentage c) 30 = inr (js_lt (riskNumber c) 30)
  /\ Untyped.lt ToNumberOther (risk_percentage c) 60 = inr (js_lt (riskNumber c) 60).
Proof.
  intros Hc. destruct (numeric_number c Hc) as [Hx _].
  unfold Untyped.and_also, Untyped.ge, Untyped.lt. rewrite Hx. cbn [bind ret].
  repeat split. unfold ret. now destruct (js_ge (riskNumber c) 30).
Qed.

Lemma numeric_stats (cells : list cell) :
  Forall numeric cells ->
  Untyped.stats ToNumberOther cells
  = inr {| total := length cells;
           highRisk := length (List.filter (fun c => js_ge (riskNumber c) 60) cells);
           moderateRisk :=
             length (List.filter
                       (fun c => js_ge (riskNumber c) 30 && js_lt (riskNumber c) 60) cells);
           lowRisk := length (List.filter (fun c => js_lt (riskNumber c) 30) cells) |}.
Proof.
  intros Hnum. unfold Untyped.stats.
  rewrite (filterTry_pure _ (fun c => js_ge (riskNumber c) 60)),
          (filterTry_pure _ (fun c => js_ge (riskNumber c) 30 && js_lt (riskNumber c) 60)),
          (filterTry_pure _ (fun c => js_lt (riskNumber c) 30));
    try (eapply List.Forall_impl; [|exact Hnum]; intros c Hc; apply (numeric_tests c Hc)).
  reflexivity.
Qed.

(** The label of a numeric cell follows the same two thresholds. *)
Lemma numeric_label (c : cell) :
  numeric c ->
  Untyped.labelOf ToNumberOther c
  = if js_lt (riskNumber c) 30 then "Low Risk"
    else if js_lt (riskNumber c) 60 then "Moderate Risk"
    else "High Risk".
Proof.
  intros Hc. destruct (numeric_tests c Hc) as (_ & _ & H30 & H60).
  unfold Untyped.labelOf, Untyped.getRiskLevel. rewrite H30. cbn [bind].
  destruct (js_lt (riskNumber c) 30); [reflexivity|].
  rewrite H60. cbn [bind]. now destruct (js_lt (riskNumber c) 60).
Qed.

(** Each test of a numeric cell is the test of its label. *)
Lemma numeric_label_tests (c : cell) :
  numeric c ->
  js_ge (riskNumber c) 60 = String.eqb (Untyped.labelOf ToNumberOther c) "High Risk"
  /\ js_ge (riskNumber c) 30 && js_lt (riskNumber c) 60
     = String.eqb (Untyped.labelOf ToNumberOther c) "Moderate Risk"
  /\ js_lt (riskNumber c) 30 = String.eqb (Untyped.labelOf ToNumberOther c) "Low Risk".
Proof.
  intros Hc. rewrite (numeric_label c Hc).
  destruct (numeric_number c Hc) as [_ Hnan].
  destruct (FloatOrder.three_ranges _ Hnan)
    as [(-> & -> & -> & ->) | [(-> & -> & -> & ->) | (-> & -> & -> & ->)]];
    repeat split.
Qed.

End Coercion.

End UntypedFacts.

(** C10, as stated, fails.  The normalisation delivers, without error, a
    landslide cell whose [risk_percentage] is [undefined]; in landslide mode
    it is the filtered list, [total] is 1 and the three counters are 0. *)
Lemma cell_without_risk_is_counted_nowhere :
  Gateway.transform (Gateway.Array [Samples.recordWithoutRisk])
  = inr [Samples.cellWithoutRisk]
  /\ Untyped.filteredCells [Samples.cellWithoutRisk] CALAMITY_TYPES.LANDSLIDE
     = [Samples.cellWithoutRisk]
  /\ Untyped.stats Samples.noConversion [Samples.cellWithoutRisk]
     = inr {| total := 1; highRisk := 0; moderateRisk := 0; lowRisk := 0 |}
  /\ ~ Untyped.counts_add_up Samples.noConversion [Samples.cellWithoutRisk].
Proof.
  repeat split; try reflexivity.
  intros (s & Hs & Hsum). vm_compute in Hs. inversion Hs; subst s.
  cbn in Hsum. discriminate.
Qed.

(** C10, amended. For every filtered cell list whose cells each have a
    [risk_percentage] that converts to a number other than [NaN] (every
    integer, as in the data model), [stats] is computed without error,
    [total] is the length of the list, the high, moderate and low counters
    are the numbers of cells with a risk of at least 60, of at least 30 and
    below 60, and below 30, and the three counters add up to [total]. *)
Theorem stats_partition_numeric
    (ToNumberOther : Gateway.jsval -> Gateway.Try float)
    (filteredCells : list Gateway.cell) :
  Forall (Untyped.numeric ToNumberOther) filteredCells ->
  exists s,
    Untyped.stats ToNumberOther filteredCells = inr s
    /\ total s = length filteredCells
    /\ highRisk s
       = length (List.filter
                   (fun c => js_ge (Untyped.riskNumber ToNumberOther c) 60) filteredCells)
    /\ moderateRisk s
       = length (List.filter
                   (fun c => js_ge (Untyped.riskNumber ToNumberOther c) 30
                             && js_lt (Untyped.riskNumber ToNumberOther c) 60)
                   filteredCells)
    /\ lowRisk s
       = length (List.filter
                   (fun c => js_lt (Untyped.riskNumber ToNumberOther c) 30) filteredCells)
    /\ (highRisk s + moderateRisk s + lowRisk s = total s)%nat.
Proof.
  intros Hnum. eexists. split; [apply UntypedFacts.numeric_stats, Hnum|].
  cbn [total highRisk moderateRisk lowRisk]. repeat split.
  apply UntypedFacts.count_three.
  eapply List.Forall_impl; [|exact Hnum]. intros c Hc.
  destruct (UntypedFacts.numeric_number ToNumberOther c Hc) as [_ Hnan].
  destruct (FloatOrder.three_ranges _ Hnan)
    as [(-> & -> & -> & ->) | [(-> & -> & -> & ->) | (-> & -> & -> & ->)]]; cbn; auto.
Qed.

Lemma stats_partition_numeric_witness :
  exists s,
    Untyped.stats Samples.noConversion Samples.numericCells = inr s
    /\ total s = length Samples.numericCells
    /\ highRisk s
       = length (List.filter
                   (fun c => js_ge (Untyped.riskNumber Samples.noConversion c) 60)
                   Samples.numericCells)
    /\ moderateRisk s
       = length (List.filter
                   (fun c => js_ge (Untyped.riskNumber Samples.noConversion c) 30
                             && js_lt (Untyped.riskNumber Samples.noConversion c) 60)
                   Samples.numericCells)
    /\ lowRisk s
       = length (List.filter
                   (fun c => js_lt (Untyped.riskNumber Samples.noConversion c) 30)
                   Samples.numericCells)
    /\ (highRisk s + moderateRisk s + lowRisk s = total s)%nat.
Proof.
  apply (stats_partition_numeric Samples.noConversion Samples.numericCells).
  repeat constructor; eexists; split; reflexivity.
Defined.

(** ** The synthesizer *)

Lemma Math_max_from (a : Z) (c : RiskCell) (rest : list RiskCell) :
  fold_left
    (fun acc x => match acc with NegInfinity => Num x | Num b => Num (Z.max b x) end)
    (map risk_percentage (c :: rest)) (Num a)
  = Num (Z.max a (Spec.max_risk c rest)).
Proof.
  revert a c; induction rest as [|c' rest IH]; intros a c; [reflexivity|].
  change (map risk_percentage (c :: c' :: rest))
    with (risk_percentage c :: map risk_percentage (c' :: rest)).
  cbn [fold_left]. rewrite IH. cbn [Spec.max_risk]. now rewrite Z.max_assoc.
Qed.

Lemma Math_max_band (c : RiskCell) (rest : list RiskCell) :
  Math_max (map risk_percentage (c :: rest)) = Num (Spec.max_risk c rest).
Proof.
  destruct rest as [|c' rest]; [reflexivity|].
  unfold Math_max.
  change (map risk_percentage (c :: c' :: rest))
    with (risk_percentage c :: map risk_percentage (c' :: rest)).
  cbn [fold_left]. now rewrite Math_max_from.
Qed.

Lemma highRisk_filter (cells : list RiskCell) :
  List.filter (fun cell => (risk_percentage cell >=? 30)%Z) cells
  = List.filter (fun c => negb (risk_percentage c <? 30)%Z) cells.
Proof.
  apply filter_ext; intros c.
  rewrite Z.geb_leb. apply Z.leb_antisym.
Qed.

(** C5. On every cell sequence and both hazard types,
    [detectRoadIntersections] computes the reference algorithm of the
    specification: cells below 30 are discarded, the rest fall in the north,
    central and south bands, Landslide reports north then central, Flood
    central then south, one alert per non-empty band with the band's maximum
    risk as severity. *)
Theorem detectRoadIntersections_is_synthesize
    (cells : list RiskCell) (h : Spec.HazardType) :
  detectRoadIntersections cells (Spec.hazard_key h) = Spec.synthesize cells h.
Proof.
  unfold detectRoadIntersections, Spec.synthesize.
  rewrite highRisk_filter.
  set (kept := List.filter _ cells).
  destruct kept as [|k kept'] eqn:Hkept; [destruct h; reflexivity|].
  cbn [length Nat.eqb]. rewrite <- Hkept. clear Hkept k kept'.
  set (north := List.filter (fun c => js_gt (minLat (bounds c)) 24.85) kept).
  set (central :=
         List.filter (fun c => js_ge (minLat (bounds c)) 24.7 && js_le (minLat (bounds c)) 24.85)
                     kept).
  set (south := List.filter (fun c => js_lt (minLat (bounds c)) 24.7) kept).
  destruct h; cbn [Spec.hazard_key Spec.bands_of flat_map];
    change (List.filter (Spec.in_band Spec.North) kept) with north;
    change (List.filter (Spec.in_band Spec.Central) kept) with central;
    change (List.filter (Spec.in_band Spec.South) kept) with south;
    cbv [CALAMITY_TYPES.LANDSLIDE CALAMITY_TYPES.FLOOD];
    cbn [String.eqb Ascii.eqb Bool.eqb].
  - destruct north as [|n north'], central as [|c central'];
      cbn [length Nat.ltb Nat.leb push app]; rewrite ?Math_max_band; reflexivity.
  - destruct central as [|c central'], south as [|s south'];
      cbn [length Nat.ltb Nat.leb push app]; rewrite ?Math_max_band; reflexivity.
Qed.

(** ** Payload normalisation *)

Module GatewayFacts.
Import Gateway.

Lemma get_truthy (v : jsval) (k : string) :
  truthy v = true -> exists x, get v k = inr x.
Proof. destruct v; cbn; intros H; try discriminate; eauto. Qed.

Lemma get_object (props : list (string * jsval)) (k : string) :
  get (Object props) k = inr (field k (Object props)).
Proof. reflexivity. Qed.

(** The callback appends, for an object record, one cell per hazard field
    that passes its test; each cell carries the record's [bounds]. *)
Lemma expand_object (acc : list cell) (props : list (string * jsval)) :
  exists group,
    expand acc (Object props) = inr (acc ++ group)%list
    /\ length group = hazards (Object props)
    /\ Forall (fun c => bounds c = field "bounds" (Object props)) group.
Proof.
  unfold expand, hazards. rewrite !get_object. cbn [bind].
  destruct (truthy (field "flood" (Object props))) eqn:Hf;
    destruct (truthy (field "landslide" (Object props))) eqn:Hl.
  - destruct (get_truthy _ "cal_type" Hf) as [f1 ->].
    destruct (get_truthy _ "risk_percentage" Hf) as [f2 ->].
    destruct (get_truthy _ "updated_at" Hf) as [f3 ->].
    destruct (get_truthy _ "cal_type" Hl) as [l1 ->].
    destruct (get_truthy _ "risk_percentage" Hl) as [l2 ->].
    destruct (get_truthy _ "updated_at" Hl) as [l3 ->].
    cbn [bind ret]; unfold ret, push. eexists [_; _]. rewrite <- List.app_assoc.
    repeat split; repeat constructor.
  - destruct (get_truthy _ "cal_type" Hf) as [f1 ->].
    destruct (get_truthy _ "risk_percentage" Hf) as [f2 ->].
    destruct (get_truthy _ "updated_at" Hf) as [f3 ->].
    cbn [bind ret]; unfold ret, push. eexists [_]. repeat split; repeat constructor.
  - destruct (get_truthy _ "cal_type" Hl) as [l1 ->].
    destruct (get_truthy _ "risk_percentage" Hl) as [l2 ->].
    destruct (get_truthy _ "updated_at" Hl) as [l3 ->].
    cbn [bind ret]; unfold ret, push. eexists [_]. repeat split; repeat constructor.
  - cbn [bind ret]; unfold ret. exists []. rewrite app_nil_r. repeat split; constructor.
Qed.

(** [forEach] over object records never throws and concatenates the
    groups of the records, in order. *)
Lemma forEach_objects (records : list jsval) (acc : list cell) :
  Forall (fun r => is_object r = true) records ->
  exists groups,
    forEach records acc = inr (acc ++ concat groups)%list
    /\ Forall2 (fun r group =>
                  length group = hazards r
                  /\ Forall (fun c => bounds c = field "bounds" r) group)
               records groups.
Proof.
  intros Hobj. revert acc.
  induction Hobj as [|r records Hr _ IH]; intros acc.
  - exists []. cbn. rewrite app_nil_r. split; [reflexivity|constructor].
  - destruct r; try discriminate.
    destruct (expand_object acc props) as (group & Hexp & Hlen & Hb).
    destruct (IH (acc ++ group)%list) as (groups & Hrest & Hall).
    exists (group :: groups). cbn [forEach concat].
    rewrite Hexp. cbn [bind]. rewrite Hrest, <- List.app_assoc.
    split; [reflexivity|]. constructor; auto.
Qed.

(** A payload of the expected shape reaches [forEach] with its records. *)
Lemma transform_records (data : jsval) (records : list jsval) :
  payload_records data = Some records ->
  transform data = forEach records [].
Proof.
  destruct data; cbn; try discriminate.
  - now intros [= ->].
  - unfold transform; cbn [get bind ret].
    destruct (lookup_prop "status" props) as [[]|]; try discriminate.
    now intros [= ->].
Qed.

Lemma raw_record_object (r : jsval) : raw_record r -> is_object r = true.
Proof. destruct r; cbn; tauto. Qed.

Lemma raw_record_hazards (r : jsval) : raw_record r -> hazards r = subrecords r.
Proof.
  destruct r; cbn; try tauto.
  unfold subrecord_or_absent, hazards, subrecords, field, has_prop.
  intros [Hf Hl].
  destruct (lookup_prop "flood" props) as [[]|];
    destruct (lookup_prop "landslide" props) as [[]|]; cbn in *; tauto.
Qed.

End GatewayFacts.

(** C6. For every payload of the expected shape whose records follow the
    wire contract, normalisation succeeds and its result is the
    concatenation, record by record, of one cell per hazard sub-record the
    record carries (none for a record with neither, two for a record with
    both), each cell with the [bounds] of its record. *)
Theorem one_cell_per_subrecord (data : Gateway.jsval) (records : list Gateway.jsval) :
  Gateway.payload_records data = Some records ->
  Forall Gateway.raw_record records ->
  exists groups,
    Gateway.transform data = inr (concat groups)
    /\ Forall2 (fun r group =>
                  length group = Gateway.subrecords r
                  /\ Forall (fun c => Gateway.bounds c = Gateway.field "bounds" r) group)
               records groups.
Proof.
  intros Hdata Hraw.
  rewrite (GatewayFacts.transform_records _ _ Hdata).
  destruct (GatewayFacts.forEach_objects records []) as (groups & Hrun & Hall).
  { eapply List.Forall_impl; [|exact Hraw]. apply GatewayFacts.raw_record_object. }
  exists groups. split; [exact Hrun|].
  clear Hrun Hdata. induction Hall as [|r g rs gs [Hlen Hb] _ IH]; [constructor|].
  inversion Hraw; subst. constructor; [|auto].
  split; [|exact Hb]. now rewrite <- GatewayFacts.raw_record_hazards.
Qed.

Lemma one_cell_per_subrecord_witness :
  exists groups,
    Gateway.transform Samples.wrappedPayload = inr (concat groups)
    /\ Forall2 (fun r group =>
                  length group = Gateway.subrecords r
                  /\ Forall (fun c => Gateway.bounds c = Gateway.field "bounds" r) group)
               Samples.sampleRecords groups.
Proof.
  apply (one_cell_per_subrecord Samples.wrappedPayload Samples.sampleRecords).
  - reflexivity.
  - repeat constructor.
Defined.

(** C4, as stated, fails: a record whose [bounds] field is missing is not
    dropped.  The payload with the single record [recordWithoutBounds]
    normalises to one cell, whereas the payload without it normalises to
    none. *)
Lemma record_without_bounds_not_dropped :
  ~ Gateway.drops_records_without_bounds [Samples.recordWithoutBounds].
Proof. unfold Gateway.drops_records_without_bounds. vm_compute. discriminate. Qed.

Lemma field_missing (k : string) (r : Gateway.jsval) :
  Gateway.has_prop k r = false -> Gateway.field k r = Gateway.Undefined.
Proof.
  destruct r; cbn; try reflexivity.
  destruct (Gateway.lookup_prop k props); [discriminate|reflexivity].
Qed.

(** C4, amended. For every payload of the expected shape whose records are
    objects, normalisation raises no error and keeps every record: each one,
    with or without [bounds], contributes one cell per hazard field that
    passes its test, and a record whose [bounds] field is missing gives its
    cells the bounds [undefined]. *)
Theorem records_without_bounds_kept
    (data : Gateway.jsval) (records : list Gateway.jsval) :
  Gateway.payload_records data = Some records ->
  Forall (fun r => Gateway.is_object r = true) records ->
  exists groups,
    Gateway.transform data = inr (concat groups)
    /\ Forall2 (fun r group =>
                  length group = Gateway.hazards r
                  /\ (Gateway.has_prop "bounds" r = false ->
                      Forall (fun c => Gateway.bounds c = Gateway.Undefined) group))
               records groups.
Proof.
  intros Hdata Hobj.
  rewrite (GatewayFacts.transform_records _ _ Hdata).
  destruct (GatewayFacts.forEach_objects records [] Hobj) as (groups & Hrun & Hall).
  exists groups. split; [exact Hrun|].
  clear Hrun Hdata Hobj. induction Hall as [|r g rs gs [Hlen Hb] _ IH]; constructor; auto.
  split; [exact Hlen|]. intros Hmiss.
  rewrite (field_missing _ _ Hmiss) in Hb. exact Hb.
Qed.

Lemma records_without_bounds_kept_witness :
  exists groups,
    Gateway.transform (Gateway.Array [Samples.recordWithoutBounds; Samples.imphalWestRecord])
    = inr (concat groups)
    /\ Forall2 (fun r group =>
                  length group = Gateway.hazards r
                  /\ (Gateway.has_prop "bounds" r = false ->
                      Forall (fun c => Gateway.bounds c = Gateway.Undefined) group))
               [Samples.recordWithoutBounds; Samples.imphalWestRecord] groups.
Proof.
  apply (records_without_bounds_kept
           (Gateway.Array [Samples.recordWithoutBounds; Samples.imphalWestRecord])).
  - reflexivity.
  - repeat constructor.
Defined.

(** On a body of an unexpected shape, the normalisation either throws or, when
    the body is a falsy primitive ([false], [0], the empty string), gives
    the empty array. *)
Lemma transform_unexpected (data : Gateway.jsval) (cells : list Gateway.cell) :
  Gateway.payload_records data = None ->
  Gateway.transform data = inr cells ->
  cells = [] /\ Gateway.truthy data = false /\ data <> Gateway.Null.
Proof.
  intros Hshape Hrun. unfold Gateway.transform in Hrun.
  destruct data as [| |b|x|s|xs|props]; cbn [Gateway.get Gateway.bind Gateway.ret] in Hrun;
    try discriminate.
  - destruct b; cbn in Hrun; [discriminate|].
    inversion Hrun. repeat split; auto; discriminate.
  - unfold Gateway.js_or in Hrun.
    change (Gateway.truthy Gateway.Undefined) with false in Hrun. cbv iota in Hrun.
    destruct (Gateway.truthy (Gateway.Number x)) eqn:Ht; [discriminate|].
    inversion Hrun. repeat split; auto; discriminate.
  - unfold Gateway.js_or in Hrun.
    change (Gateway.truthy Gateway.Undefined) with false in Hrun. cbv iota in Hrun.
    destruct (Gateway.truthy (Gateway.Str s)) eqn:Ht; [discriminate|].
    inversion Hrun. repeat split; auto; discriminate.
  - cbn in Hshape.
    set (st := match Gateway.lookup_prop "status" props with
               | Some v => v
               | None => Gateway.Undefined
               end) in Hrun.
    assert (Hst : forall xs, st <> Gateway.Array xs).
    { subst st. destruct (Gateway.lookup_prop "status" props) as [[]|]; discriminate. }
    unfold Gateway.js_or in Hrun.
    destruct (Gateway.truthy st) eqn:Ht; [rewrite Ht in Hrun|discriminate].
    destruct st; try discriminate. now destruct (Hst xs).
Qed.

(** A body of an unexpected shape never yields cells, and it yields no error
    only when it is a falsy primitive. *)
Lemma unexpected_payload_outcome (data : Gateway.jsval) :
  Gateway.payload_records data = None ->
  snd (Gateway.fetchDisasterData (Gateway.okResponse data)) = []
  /\ (fst (Gateway.fetchDisasterData (Gateway.okResponse data)) = None ->
      Gateway.truthy data = false /\ data <> Gateway.Null).
Proof.
  intros Hshape. unfold Gateway.fetchDisasterData.
  change (Gateway.tryBlock (Gateway.okResponse data)) with (Gateway.transform data).
  destruct (Gateway.transform data) as [e|cells] eqn:Hrun.
  - split; [reflexivity|discriminate].
  - destruct (transform_unexpected _ _ Hshape Hrun) as (-> & Ht & Hn). auto.
Qed.

(** C3, on the code. The body [{"message": "no data"}] is neither a list
    nor a wrapper with a list, yet the fetch does not degrade to an empty
    result silently: [rawCells] is the object itself, [forEach] is not a
    function on it, and the error banner is set. *)
Theorem unexpected_payload_surfaces_error :
  Gateway.payload_records Samples.messagePayload = None
  /\ Gateway.fetchDisasterData (Gateway.okResponse Samples.messagePayload)
     = (Some "Failed to fetch prediction data: rawCells.forEach is not a function", []).
Proof. split; reflexivity. Qed.

(** ** The render loop comes to rest *)

Lemma sameDeps_eq (a b : Deps) : sameDeps a b = true <-> a = b.
Proof.
  destruct a as [ac [as1 as2] [aa1 aa2]], b as [bc [bs1 bs2] [ba1 ba2]].
  unfold sameDeps, sameCountryDeps, sameStateDeps, sameAlertsDeps; cbn.
  rewrite !andb_true_iff, !String.eqb_eq, Nat.eqb_eq.
  split; [intros [[-> [-> ->]] [-> ->]]; reflexivity | intros [= -> -> -> -> ->]; auto].
Qed.

Lemma noEffectDue_settled (prev : option Deps) (r : State) :
  noEffectDue prev r = true <-> prev = Some (depsOf r).
Proof.
  destruct prev as [d|]; cbn; [|split; discriminate].
  rewrite sameDeps_eq. split; [now intros ->|now intros [= ->]].
Qed.

Ltac split_ifs :=
  repeat match goal with
    | |- context [if ?c then _ else _] => destruct c
    end.

(** No effect writes the country or the calamity mode. *)
Lemma commit_country_mode (prev : option Deps) (r : State) :
  selectedCountry (commit prev r) = selectedCountry r
  /\ calamityMode (commit prev r) = calamityMode r.
Proof.
  unfold commit, runIf, andThen, countryEffect, stateEffect, alertsEffect, andThen, nothing.
  destruct prev; split_ifs; split; reflexivity.
Qed.

(** Only the country effect writes the selected state. *)
Lemma commit_state (d : Deps) (r : State) :
  countryDeps d = selectedCountry r ->
  selectedState (commit (Some d) r) = selectedState r.
Proof.
  intros Hc.
  unfold commit, runIf, andThen. cbn [depsOf countryDeps].
  unfold sameCountryDeps. rewrite Hc, String.eqb_refl.
  unfold stateEffect, alertsEffect, andThen, nothing.
  split_ifs; reflexivity.
Qed.

(** The alerts effect writes [roadAlerts] only, which no dependency array
    mentions. *)
Lemma commit_deps (d : Deps) (r : State) :
  countryDeps d = selectedCountry r ->
  stateDeps d = (selectedState r, selectedCountry r) ->
  depsOf (commit (Some d) r) = depsOf r.
Proof.
  intros Hc Hs.
  unfold commit, runIf, andThen. cbn [depsOf countryDeps stateDeps].
  unfold sameCountryDeps, sameStateDeps. rewrite Hc, Hs. cbn [fst snd].
  rewrite !String.eqb_refl. cbn [andb].
  unfold alertsEffect, nothing. split_ifs; reflexivity.
Qed.

Lemma settle_S (fuel : nat) (prev : option Deps) (r : State) :
  settle (S fuel) prev r
  = if noEffectDue prev r then (r, prev)
    else settle fuel (Some (depsOf r)) (commit prev r).
Proof. reflexivity. Qed.

Lemma settle_at_rest (fuel : nat) (prev : option Deps) (r : State) :
  noEffectDue prev r = true -> settle fuel prev r = (r, prev).
Proof. intros H. destruct fuel; cbn; now rewrite H. Qed.

(** Three nested renders are enough: the first may run the country effect,
    which may change the selected state; the second may then run the state
    effect, which may change the cells; the third may run the alerts effect,
    which changes no dependency. *)
Lemma settle_quiescent (fuel : nat) (prev : option Deps) (r : State) :
  (3 <= fuel)%nat ->
  snd (settle fuel prev r) = Some (depsOf (fst (settle fuel prev r))).
Proof.
  intros Hfuel.
  destruct fuel as [|[|[|fuel]]]; try lia. clear Hfuel.
  cbn [settle].
  destruct (noEffectDue prev r) eqn:H0; [now apply noEffectDue_settled|].
  set (r1 := commit prev r).
  destruct (noEffectDue (Some (depsOf r)) r1) eqn:H1; [now apply noEffectDue_settled|].
  set (r2 := commit (Some (depsOf r)) r1).
  destruct (noEffectDue (Some (depsOf r1)) r2) eqn:H2; [now apply noEffectDue_settled|].
  set (r3 := commit (Some (depsOf r1)) r2).
  assert (Hc1 : selectedCountry r1 = selectedCountry r) by apply commit_country_mode.
  assert (Hc2 : selectedCountry r2 = selectedCountry r1) by apply commit_country_mode.
  assert (Hs2 : selectedState r2 = selectedState r1).
  { apply commit_state. cbn [depsOf countryDeps]. now rewrite Hc1. }
  assert (H3 : depsOf r3 = depsOf r2).
  { apply commit_deps; cbn [depsOf countryDeps stateDeps];
      [now rewrite Hc2|now rewrite Hs2, Hc2]. }
  rewrite settle_at_rest; cbn [fst snd]; [now rewrite H3|].
  apply noEffectDue_settled. now rewrite H3.
Qed.

Lemma rerender_settled (w : World) : settled (rerender w).
Proof.
  unfold settled, rerender.
  pose proof (settle_quiescent NESTED_UPDATE_LIMIT (committed w) (ui w)) as H.
  destruct (settle NESTED_UPDATE_LIMIT (committed w) (ui w)) as [r d].
  cbn in *. apply H. unfold NESTED_UPDATE_LIMIT. lia.
Qed.

Lemma step_settled (w : World) (e : Event) : settled (step w e).
Proof. apply rerender_settled. Qed.

Lemma mount_settled : settled mount.
Proof. apply rerender_settled. Qed.

Lemma run_settled (w : World) (events : list Event) :
  settled w -> settled (run w events).
Proof.
  revert w; induction events as [|e events IH]; intros w Hw; [exact Hw|].
  cbn. apply IH, step_settled.
Qed.

(** When no dependency changed, the state the handler left is the state
    shown. *)
Lemma rerender_at_rest (w : World) :
  committed w = Some (depsOf (ui w)) -> rerender w = w.
Proof.
  intros H. unfold rerender.
  rewrite settle_at_rest by now apply noEffectDue_settled.
  now destruct w.
Qed.

(** ** Focusing a road alert *)

(** C9. Clicking a road alert that has contributing cells, in a component
    at rest, sets the centre of the view to
    ((minLat + maxLat) / 2, (minLon + maxLon) / 2) of the bounds of the
    alert's first cell, sets the zoom to 12, and leaves country, state and
    district as they were. *)
Theorem roadAlertClick_recenters
    (w : World) (alert : RoadAlert) (cell : RiskCell) (rest : list RiskCell) :
  settled w ->
  cells alert = cell :: rest ->
  let w' := step w (RoadAlertClick alert) in
  mapCenter (ui w')
  = (((minLat (bounds cell) + maxLat (bounds cell)) / 2)%float,
     ((minLon (bounds cell) + maxLon (bounds cell)) / 2)%float)
  /\ mapZoom (ui w') = 12%Z
  /\ selection w' = selection w.
Proof.
  intros Hrest Hcells w'. subst w'. unfold step.
  rewrite rerender_at_rest.
  - cbn [handle withUi ui]. unfold handleRoadAlertClick. rewrite Hcells.
    unfold selection. repeat split.
  - cbn [handle withUi ui committed]. unfold handleRoadAlertClick. rewrite Hcells.
    exact Hrest.
Qed.

Lemma roadAlertClick_recenters_witness :
  let w := run mount Scenarios.toManipur in
  let w' := step w (RoadAlertClick Scenarios.northAlert) in
  mapCenter (ui w')
  = (((24.90 + 24.95) / 2)%float, ((93.90 + 93.95) / 2)%float)
  /\ mapZoom (ui w') = 12%Z
  /\ selection w' = selection w.
Proof.
  apply (roadAlertClick_recenters (run mount Scenarios.toManipur) Scenarios.northAlert
           Scenarios.northCell []).
  - reflexivity.
  - reflexivity.
Defined.

(** ** Settling of a request *)

Lemma setRoadAlerts_same (r : State) : setRoadAlerts (roadAlerts r) r = r.
Proof. now destruct r. Qed.

(** While country and state are unchanged, a commit can only run the alerts
    effect ... *)
Lemma commit_alerts_only (d : Deps) (r : State) :
  countryDeps d = selectedCountry r ->
  stateDeps d = (selectedState r, selectedCountry r) ->
  exists alerts, commit (Some d) r = setRoadAlerts alerts r.
Proof.
  intros Hc Hs.
  unfold commit, runIf, andThen. cbn [depsOf countryDeps stateDeps].
  unfold sameCountryDeps, sameStateDeps. rewrite Hc, Hs. cbn [fst snd].
  rewrite !String.eqb_refl. cbn [andb].
  unfold alertsEffect, nothing. split_ifs; eauto.
  exists (roadAlerts r). now rewrite setRoadAlerts_same.
Qed.

(** ... and so does the whole render loop. *)
Lemma settle_alerts_only (fuel : nat) (d : Deps) (r : State) :
  countryDeps d = selectedCountry r ->
  stateDeps d = (selectedState r, selectedCountry r) ->
  exists alerts, fst (settle fuel (Some d) r) = setRoadAlerts alerts r.
Proof.
  revert d r; induction fuel as [|fuel IH]; intros d r Hc Hs; cbn [settle].
  - exists (roadAlerts r). destruct (noEffectDue _ _); cbn; now rewrite setRoadAlerts_same.
  - destruct (noEffectDue (Some d) r).
    + exists (roadAlerts r). cbn. now rewrite setRoadAlerts_same.
    + destruct (commit_alerts_only d r Hc Hs) as [a ->].
      destruct (IH (depsOf r) (setRoadAlerts a r)) as [a' ->]; [reflexivity..|].
      now exists a'.
Qed.




(** ** Regeneration of the road alerts *)

Lemma detectRoadIntersections_nil (calamityType : string) :
  detectRoadIntersections [] calamityType = [].
Proof. reflexivity. Qed.

(** When it runs, the alerts effect stores the alerts of the cells on
    display. *)
Lemma alertsEffect_fresh (r : State) :
  alertsEffect r r
  = setRoadAlerts (detectRoadIntersections (filteredCells r) (calamityMode r)) r.
Proof.
  unfold alertsEffect. destruct (filteredCells r) as [|c cs]; reflexivity.
Qed.

(** With country and state unchanged, a change of the filtered cell count
    or of the mode runs the alerts effect, once. *)
Lemma settle_alerts_refresh (fuel : nat) (d : Deps) (r : State) :
  countryDeps d = selectedCountry r ->
  stateDeps d = (selectedState r, selectedCountry r) ->
  sameAlertsDeps (alertsDeps d) (alertsDeps (depsOf r)) = false ->
  fst (settle (S fuel) (Some d) r)
  = setRoadAlerts (detectRoadIntersections (filteredCells r) (calamityMode r)) r.
Proof.
  intros Hc Hs Ha. cbn [settle].
  assert (Hdue : noEffectDue (Some d) r = false).
  { cbn. unfold sameDeps. rewrite Ha. apply andb_false_r. }
  rewrite Hdue.
  assert (Hcommit : commit (Some d) r = alertsEffect r r).
  { unfold commit, runIf, andThen. rewrite Ha. cbn [depsOf countryDeps stateDeps].
    unfold sameCountryDeps, sameStateDeps. rewrite Hc, Hs. cbn [fst snd].
    now rewrite !String.eqb_refl. }
  rewrite Hcommit, alertsEffect_fresh, settle_at_rest; [reflexivity|].
  now apply noEffectDue_settled.
Qed.

(** X21. A click on the button of the other calamity mode always
    regenerates the alerts: afterwards they are those of the synthesizer on
    the cells of the new mode. *)
Lemma modeClick_alerts_fresh (w : World) (mode : string) :
  settled w ->
  calamityMode (ui w) <> mode ->
  alerts_fresh (step w (ModeClick mode)).
Proof.
  intros Hrest Hmode. unfold alerts_fresh, step, rerender.
  cbn [handle withUi ui committed]. rewrite Hrest. unfold NESTED_UPDATE_LIMIT.
  pose proof (settle_alerts_refresh 49 (depsOf (ui w)) (setCalamityMode mode (ui w))) as H.
  destruct (settle 50 _ _) as [r d]. cbn [fst ui] in *.
  rewrite H; [reflexivity..|].
  unfold sameAlertsDeps. cbn [depsOf alertsDeps snd calamityMode setCalamityMode].
  apply String.eqb_neq in Hmode. rewrite Hmode. apply andb_false_r.
Qed.

(** X22. A delivery of cells regenerates the alerts when it changes the
    number of cells of the current mode: afterwards the alerts are those of
    the synthesizer on the cells now displayed. *)
Lemma fetchSettled_alerts_fresh
    (w : World) (request : nat) (districtParam : string)
    (transformedCells : list RiskCell) (now : Z) :
  settled w ->
  inflight w !! request = Some districtParam ->
  length (List.filter (fun cell => String.eqb (cal_type cell) (calamityMode (ui w)))
                      transformedCells)
  <> length (filteredCells (ui w)) ->
  alerts_fresh (step w (FetchSettled request (Fulfilled transformedCells) now)).
Proof.
  intros Hrest Hreq Hlen. unfold alerts_fresh, step, rerender, handle.
  rewrite Hreq. cbn [ui committed]. rewrite Hrest. unfold NESTED_UPDATE_LIMIT.
  set (r := fetchDisasterData_finish districtParam (Fulfilled transformedCells) now (ui w)).
  pose proof (settle_alerts_refresh 49 (depsOf (ui w)) r) as H.
  destruct (settle 50 _ _) as [r' d]. cbn [fst ui] in *.
  rewrite H; [reflexivity|..]; subst r;
    unfold fetchDisasterData_finish, andThen, nothing;
    destruct (MANIPUR_DISTRICTS !! districtParam); try reflexivity;
    unfold sameAlertsDeps; cbn [depsOf alertsDeps fst];
    apply andb_false_iff; left; apply Nat.eqb_neq; intros Heq; apply Hlen;
    symmetry; exact Heq.
Qed.

(** C2, on the code. Both requests of [bothSettle] deliver one landslide
    cell.  The second delivery replaces the northern cell by the central
    one; the filtered count stays 1, the alerts effect does not run, and the
    page keeps the northern alert although the synthesizer, run on the cells
    now displayed, gives the ring-road alert. *)
Theorem same_size_replacement_leaves_alerts_stale :
  let before := run mount (removelast Scenarios.bothSettle) in
  let after := run mount Scenarios.bothSettle in
  alerts_fresh before
  /\ filteredCells (ui before) = [Scenarios.northCell]
  /\ filteredCells (ui after) = [Scenarios.centralCell]
  /\ calamityMode (ui after) = CALAMITY_TYPES.LANDSLIDE
  /\ roadAlerts (ui after) = [Scenarios.northAlert]
  /\ ~ alerts_fresh after.
Proof.
  cbv zeta. repeat split; try reflexivity.
  unfold alerts_fresh. vm_compute. discriminate.
Qed.

(** ** Backward navigation *)

(** Once cells and alerts are cleared, with the country unchanged and the
    state effect either not due or without a matching branch, the remaining
    renders change nothing. *)
Lemma commit_cleared (d : Deps) (r : State) :
  countryDeps d = selectedCountry r ->
  stateDeps d = (selectedState r, selectedCountry r)
  \/ (String.eqb (selectedState r) "Manipur" = false
      /\ String.eqb (selectedState r) "" && String.eqb (selectedCountry r) "India" = false) ->
  riskCells r = [] ->
  roadAlerts r = [] ->
  commit (Some d) r = r.
Proof.
  intros Hc Hs Hcells Halerts.
  assert (Hfresh : alertsEffect r r = r).
  { rewrite alertsEffect_fresh. unfold filteredCells. rewrite Hcells. cbn [List.filter].
    rewrite detectRoadIntersections_nil, <- Halerts. apply setRoadAlerts_same. }
  unfold commit, runIf, andThen. cbn [depsOf countryDeps].
  unfold sameCountryDeps at 1. rewrite Hc, String.eqb_refl.
  change (nothing r) with r.
  assert (Hstate : (if sameStateDeps (stateDeps d) (stateDeps (depsOf r))
                    then nothing else stateEffect r) r = r).
  { destruct Hs as [Hs | [H1 H2]].
    - unfold sameStateDeps. rewrite Hs. cbn [depsOf stateDeps fst snd].
      now rewrite !String.eqb_refl.
    - unfold stateEffect. rewrite H1, H2. now destruct (sameStateDeps _ _). }
  rewrite Hstate.
  destruct (sameAlertsDeps _ _); [reflexivity|exact Hfresh].
Qed.

Lemma settle_cleared (fuel : nat) (d : Deps) (r : State) :
  countryDeps d = selectedCountry r ->
  stateDeps d = (selectedState r, selectedCountry r)
  \/ (String.eqb (selectedState r) "Manipur" = false
      /\ String.eqb (selectedState r) "" && String.eqb (selectedCountry r) "India" = false) ->
  riskCells r = [] ->
  roadAlerts r = [] ->
  fst (settle fuel (Some d) r) = r.
Proof.
  intros Hc Hs Hcells Halerts.
  destruct fuel as [|fuel]; cbn [settle]; destruct (noEffectDue (Some d) r); try reflexivity.
  rewrite commit_cleared by assumption.
  rewrite settle_at_rest; [reflexivity|now apply noEffectDue_settled].
Qed.

(** Clearing the district: the handler resets the view to the state and
    clears cells and alerts; country and state stay. *)
Lemma district_cleared (w : World) :
  settled w ->
  let w' := step w (DistrictChange "") in
  selection w' = (selectedCountry (ui w), selectedState (ui w), "")
  /\ riskCells (ui w') = []
  /\ roadAlerts (ui w') = []
  /\ viewState w' = (center MAP_VIEWS.manipur, zoom MAP_VIEWS.manipur).
Proof.
  intros Hrest w'. subst w'. unfold step, rerender.
  cbn [handle handleDistrictChange String.eqb negb ui committed]. rewrite Hrest.
  match goal with |- context [settle ?f ?p ?r] =>
    pose proof (settle_cleared f (depsOf (ui w)) r) as H;
    destruct (settle f p r) as [r' d']
  end.
  cbn [fst] in H. rewrite H by (try reflexivity; left; reflexivity).
  repeat split.
Qed.

(** Clearing the state inside India: the state effect resets the view to
    the country and clears district, cells and alerts. *)
Lemma state_cleared (w : World) :
  settled w ->
  selectedCountry (ui w) = "India" ->
  selectedState (ui w) <> "" ->
  let w' := step w (StateChange "") in
  selection w' = ("India", "", "")
  /\ riskCells (ui w') = []
  /\ roadAlerts (ui w') = []
  /\ viewState w' = (center MAP_VIEWS.india, zoom MAP_VIEWS.india).
Proof.
  intros Hrest Hcountry Hstate w'. subst w'. unfold step, rerender.
  cbn [handle withUi ui committed]. rewrite Hrest.
  set (r := setSelectedState "" (ui w)).
  apply String.eqb_neq in Hstate.
  assert (Hdue : noEffectDue (Some (depsOf (ui w))) r = false).
  { cbn. unfold sameDeps, sameStateDeps. cbn. rewrite Hstate.
    now rewrite andb_false_r. }
  assert (Hcommit : commit (Some (depsOf (ui w))) r
                    = (setMapCenter (center MAP_VIEWS.india) >>>
                       setMapZoom (zoom MAP_VIEWS.india) >>>
                       setSelectedDistrict "" >>>
                       setRiskCells [] >>>
                       setRoadAlerts []) r).
  { unfold commit, runIf, andThen.
    unfold sameCountryDeps, sameStateDeps, sameAlertsDeps, stateEffect.
    cbn [depsOf countryDeps stateDeps alertsDeps fst snd r selectedCountry selectedState
         setSelectedState calamityMode].
    change (filteredCells r) with (filteredCells (ui w)).
    rewrite Hstate, Hcountry, Nat.eqb_refl, !String.eqb_refl. reflexivity. }
  unfold NESTED_UPDATE_LIMIT. rewrite settle_S, Hdue, Hcommit.
  match goal with |- context [settle ?f ?p ?r0] =>
    pose proof (settle_cleared f (depsOf r) r0) as H;
    destruct (settle f p r0) as [r' d']
  end.
  cbn [fst] in H. rewrite H by (try reflexivity; left; reflexivity).
  unfold selection, viewState, andThen. cbn. now rewrite Hcountry.
Qed.

(** Clearing the country: state, district, cells and alerts are cleared.
    The country effect queues the world view, but the state effect, which
    also depends on the country, runs in the same commit on the state that
    was selected and queues the view of Manipur after it. *)
Lemma country_cleared (w : World) :
  settled w ->
  selectedCountry (ui w) <> "" ->
  let w' := step w (CountryChange "") in
  selection w' = ("", "", "")
  /\ riskCells (ui w') = []
  /\ roadAlerts (ui w') = []
  /\ viewState w'
     = if String.eqb (selectedState (ui w)) "Manipur"
       then (center MAP_VIEWS.manipur, zoom MAP_VIEWS.manipur)
       else (center MAP_VIEWS.world, zoom MAP_VIEWS.world).
Proof.
  intros Hrest Hcountry w'. subst w'. unfold step, rerender.
  cbn [handle withUi ui committed]. rewrite Hrest.
  set (r := setSelectedCountry "" (ui w)).
  apply String.eqb_neq in Hcountry.
  assert (Hdue : noEffectDue (Some (depsOf (ui w))) r = false).
  { cbn. unfold sameDeps, sameCountryDeps. cbn. now rewrite Hcountry. }
  assert (Hcommit : commit (Some (depsOf (ui w))) r
                    = (setMapCenter (center MAP_VIEWS.world) >>>
                       setMapZoom (zoom MAP_VIEWS.world) >>>
                       setSelectedState "" >>>
                       setSelectedDistrict "" >>>
                       setRiskCells [] >>>
                       setRoadAlerts [] >>>
                       (if String.eqb (selectedState (ui w)) "Manipur"
                        then setMapCenter (center MAP_VIEWS.manipur) >>>
                             setMapZoom (zoom MAP_VIEWS.manipur)
                        else nothing)) r).
  { unfold commit, runIf.
    unfold sameCountryDeps, sameStateDeps, sameAlertsDeps, stateEffect, countryEffect.
    cbn [depsOf countryDeps stateDeps alertsDeps fst snd r selectedCountry selectedState
         setSelectedCountry calamityMode].
    change (filteredCells r) with (filteredCells (ui w)).
    rewrite Hcountry, Nat.eqb_refl, !String.eqb_refl.
    cbn [String.eqb andb]. rewrite andb_false_r.
    destruct (String.eqb (selectedState (ui w)) "Manipur"); reflexivity. }
  unfold NESTED_UPDATE_LIMIT. rewrite settle_S, Hdue, Hcommit.
  match goal with |- context [settle ?f ?p ?r0] =>
    pose proof (settle_cleared f (depsOf r) r0) as H;
    destruct (settle f p r0) as [r' d']
  end.
  cbn [fst] in H. rewrite H.
  - unfold selection, viewState, andThen, nothing.
    destruct (String.eqb (selectedState (ui w)) "Manipur"); repeat split.
  - unfold andThen, nothing.
    destruct (String.eqb (selectedState (ui w)) "Manipur"); reflexivity.
  - right. unfold andThen, nothing.
    destruct (String.eqb (selectedState (ui w)) "Manipur"); split; reflexivity.
  - unfold andThen, nothing.
    destruct (String.eqb (selectedState (ui w)) "Manipur"); reflexivity.
  - unfold andThen, nothing.
    destruct (String.eqb (selectedState (ui w)) "Manipur"); reflexivity.
Qed.

(** C7, on the code. With India and Manipur selected, clearing the country
    clears state, district, cells and alerts, but the view ends on Manipur
    (the region of the level that was just cleared), not on the world. *)
Theorem clearing_country_keeps_state_view :
  let w := run mount Scenarios.toManipur in
  let w' := step w (CountryChange "") in
  selection w = ("India", "Manipur", "")
  /\ selection w' = ("", "", "")
  /\ riskCells (ui w') = []
  /\ roadAlerts (ui w') = []
  /\ viewState w' = (center MAP_VIEWS.manipur, zoom MAP_VIEWS.manipur)
  /\ viewState w' <> (center MAP_VIEWS.world, zoom MAP_VIEWS.world).
Proof.
  cbv zeta. repeat split; try reflexivity.
  vm_compute. discriminate.
Qed.

(** ** Reachable worlds and the scenarios of the specification *)

Lemma reachable_settled (w : World) : reachable w -> settled w.
Proof. intros [|w' e _ _]; [apply mount_settled|apply step_settled]. Qed.

Lemma run_reachable (w : World) (events : list Event) :
  reachable w -> offered_all w events -> reachable (run w events).
Proof.
  revert w; induction events as [|e events IH]; intros w Hw Hoff; [exact Hw|].
  destruct Hoff as [He Hrest]. cbn [run fold_left].
  apply IH; [now constructor|exact Hrest].
Qed.

Ltac offered_now :=
  lazymatch goal with
  | |- offered _ (CountryChange _) => unfold offered; auto
  | |- offered _ (StateChange _) => split; [vm_compute; discriminate|auto]
  | |- offered _ (DistrictChange _) =>
      split; [vm_compute; discriminate|right; vm_compute; eauto]
  | |- offered _ (FetchSettled _ _ _) => unfold offered; vm_compute; eauto
  end.

(** The traces on which the code departs from the claims are traces the
    page can produce. *)
Example bothSettle_reachable : reachable (run mount Scenarios.bothSettle).
Proof.
  apply run_reachable; [constructor|].
  cbn [Scenarios.bothSettle Scenarios.twoInFlight Scenarios.toManipur app offered_all].
  repeat (split; [offered_now|]). exact I.
Qed.

Example clearing_country_reachable :
  reachable (run mount (Scenarios.toManipur ++ [CountryChange ""])).
Proof.
  apply run_reachable; [constructor|].
  cbn [Scenarios.toManipur app offered_all].
  repeat (split; [offered_now|]). exact I.
Qed.

(** Scenario 1: selecting India centres the map on (22.5, 79) at zoom 5. *)
Example select_india :
  viewState (step mount (CountryChange "India")) = ((22.5, 79)%float, 5%Z).
Proof. reflexivity. Qed.

(** Scenario 2: the Imphal West record gives one landslide cell, and a
    landslide cell at latitude 24.78 raises the ring-road alert. *)
Example imphal_west_cell :
  Gateway.transform (Gateway.Array [Samples.imphalWestRecord])
  = inr [ {| Gateway.bounds := Gateway.field "bounds" Samples.imphalWestRecord;
             Gateway.cal_type := Gateway.Str "landslide";
             Gateway.risk_percentage := Gateway.Number 72;
             Gateway.updated_at := Gateway.Str "2025-01-01T00:00:00Z" |} ].
Proof. reflexivity. Qed.

Example central_ring_road_alert :
  map id (detectRoadIntersections [Scenarios.centralCell] CALAMITY_TYPES.LANDSLIDE)
  = ["imphal-central"].
Proof. reflexivity. Qed.

(** Scenario 3: an HTTP 500 response sets the error and leaves the cells
    empty. *)
Example http_500 :
  Gateway.fetchDisasterData
    (inr {| Gateway.ok := false; Gateway.status := 500;
            Gateway.json := inr Gateway.Null |})
  = (Some "Failed to fetch prediction data: API error: 500", []).
Proof. reflexivity. Qed.

(** When the superseded request settles last, the page is left with the
    cells of Imphal West under the selection Thoubal. *)
Example superseded_request_settles_last :
  let w := run mount (Scenarios.twoInFlight
                        ++ [FetchSettled 1 (Fulfilled [Scenarios.centralCell]) 1700000000;
                            FetchSettled 0 (Fulfilled [Scenarios.northCell]) 1700000001]) in
  selectedDistrict (ui w) = "Thoubal"
  /\ riskCells (ui w) = [Scenarios.northCell]
  /\ inflight w = ∅.
Proof. cbv zeta. repeat split; reflexivity. Qed.

(* ====================================================================== *)
(** * Further properties of the code *)
(* ====================================================================== *)

(** ** Normalisation, record by record *)

Module NormalisationFacts.
Import Gateway.

Lemma get_field (v : jsval) (k : string) :
  truthy v = true -> get v k = inr (field k v).
Proof. destruct v; cbn; intros H; try discriminate; reflexivity. Qed.

(** What [expand] appends for an object record does not depend on the cells
    accumulated so far. *)
Lemma expand_object_group (props : list (string * jsval)) :
  exists group,
    (forall acc, expand acc (Object props) = inr (acc ++ group)%list)
    /\ (length group <= 2)%nat
    /\ Forall (cell_of_record (Object props)) group.
Proof.
  set (r := Object props).
  destruct (truthy (field "flood" r)) eqn:Hf; destruct (truthy (field "landslide" r)) eqn:Hl.
  - eexists [_; _]. split; [|split].
    + intros acc. unfold expand. subst r. rewrite !GatewayFacts.get_object.
      cbn [bind]. rewrite Hf, Hl, !(get_field _ _ Hf), !(get_field _ _ Hl).
      cbn [bind ret]. unfold ret, push. rewrite <- List.app_assoc. reflexivity.
    + cbn; lia.
    + constructor; [left|constructor; [right|constructor]]; repeat split; auto.
  - eexists [_]. split; [|split].
    + intros acc. unfold expand. subst r. rewrite !GatewayFacts.get_object.
      cbn [bind]. rewrite Hf, Hl, !(get_field _ _ Hf).
      cbn [bind ret]. reflexivity.
    + cbn; lia.
    + constructor; [left|constructor]; repeat split; auto.
  - eexists [_]. split; [|split].
    + intros acc. unfold expand. subst r. rewrite !GatewayFacts.get_object.
      cbn [bind]. rewrite Hf, Hl, !(get_field _ _ Hl).
      cbn [bind ret]. reflexivity.
    + cbn; lia.
    + constructor; [right|constructor]; repeat split; auto.
  - exists []. split; [|split].
    + intros acc. unfold expand. subst r. rewrite !GatewayFacts.get_object.
      cbn [bind]. rewrite Hf, Hl. cbn [bind ret]. unfold ret. now rewrite app_nil_r.
    + cbn; lia.
    + constructor.
Qed.

(** The three ways a record is treated: [null] makes the callback throw, an
    object appends its cells, any other value appends nothing. *)
Lemma expand_cases (r : jsval) :
  (nullish r = true /\ exists e, forall acc, expand acc r = inl e)
  \/ (nullish r = false
      /\ exists group,
           (forall acc, expand acc r = inr (acc ++ group)%list)
           /\ (length group <= if is_object r then 2 else 0)%nat
           /\ Forall (cell_of_record r) group).
Proof.
  destruct r as [| |b|x|s|xs|props].
  - left. split; [reflexivity|]. eexists. intros acc. reflexivity.
  - left. split; [reflexivity|]. eexists. intros acc. reflexivity.
  - right. split; [reflexivity|]. exists []. repeat split; [|cbn; lia|constructor].
    intros acc. cbn. unfold ret. now rewrite app_nil_r.
  - right. split; [reflexivity|]. exists []. repeat split; [|cbn; lia|constructor].
    intros acc. cbn. unfold ret. now rewrite app_nil_r.
  - right. split; [reflexivity|]. exists []. repeat split; [|cbn; lia|constructor].
    intros acc. cbn. unfold ret. now rewrite app_nil_r.
  - right. split; [reflexivity|]. exists []. repeat split; [|cbn; lia|constructor].
    intros acc. cbn. unfold ret. now rewrite app_nil_r.
  - right. split; [reflexivity|].
    destruct (expand_object_group props) as (group & Hrun & Hlen & Hprov).
    exists group. repeat split; assumption.
Qed.

(** The accumulator only prefixes the result. *)
Lemma forEach_acc (records : list jsval) (acc : list cell) :
  forEach records acc
  = match forEach records [] with
    | inl e => inl e
    | inr cells => inr (acc ++ cells)%list
    end.
Proof.
  revert acc. induction records as [|r records IH]; intros acc.
  - cbn. unfold ret. now rewrite app_nil_r.
  - cbn [forEach].
    destruct (expand_cases r) as [[_ [e He]] | [_ (group & Hrun & _)]].
    + now rewrite (He acc), (He []).
    + rewrite (Hrun acc), (Hrun []). cbn [bind app].
      rewrite (IH (acc ++ group)%list), (IH group).
      destruct (forEach records []); [reflexivity|].
      now rewrite List.app_assoc.
Qed.

Lemma forEach_app (xs ys : list jsval) (acc : list cell) :
  forEach (xs ++ ys) acc
  = match forEach xs acc with
    | inl e => inl e
    | inr cells => forEach ys cells
    end.
Proof.
  revert acc. induction xs as [|x xs IH]; intros acc; [reflexivity|].
  cbn [app forEach]. destruct (expand acc x); cbn [bind]; [reflexivity|apply IH].
Qed.

Lemma transform_array (records : list jsval) :
  transform (Array records) = forEach records [].
Proof. reflexivity. Qed.

End NormalisationFacts.

(** X1. A bare list normalises without error exactly when none of its
    elements is [null]: a single [null] record makes [forEach] throw and the
    whole payload is lost, while any other element (object or not) is
    processed. *)
Theorem transform_throws_iff_null_record (records : list Gateway.jsval) :
  (exists cells, Gateway.transform (Gateway.Array records) = inr cells)
  <-> Forall (fun r => nullish r = false) records.
Proof.
  rewrite NormalisationFacts.transform_array.
  induction records as [|r records IH].
  - split; [constructor|]. intros _. now exists [].
  - cbn [Gateway.forEach].
    destruct (NormalisationFacts.expand_cases r) as [[Hn [e He]] | [Hn (group & Hrun & _)]].
    + rewrite (He []). cbn [Gateway.bind]. split.
      * intros [cells H]. discriminate.
      * intros H. inversion H; subst. congruence.
    + rewrite (Hrun []). cbn [Gateway.bind app].
      rewrite NormalisationFacts.forEach_acc. split.
      * intros [cells H]. constructor; [exact Hn|]. apply IH.
        destruct (Gateway.forEach records []); [discriminate|eauto].
      * intros H. inversion H; subst.
        destruct (proj2 IH H3) as [cells ->]. eauto.
Qed.

(** X2. Normalising a concatenation of two lists is normalising each and
    appending the results, the first error winning: the cells keep the order
    of the records and no record influences the cells of another. *)
Theorem transform_app (xs ys : list Gateway.jsval) :
  Gateway.transform (Gateway.Array (xs ++ ys))
  = match Gateway.transform (Gateway.Array xs) with
    | inl e => inl e
    | inr cellsX =>
        match Gateway.transform (Gateway.Array ys) with
        | inl e => inl e
        | inr cellsY => inr (cellsX ++ cellsY)%list
        end
    end.
Proof.
  rewrite !NormalisationFacts.transform_array, NormalisationFacts.forEach_app.
  destruct (Gateway.forEach xs []) as [e|cellsX]; [reflexivity|].
  apply NormalisationFacts.forEach_acc.
Qed.

Lemma forEach_cells (records : list Gateway.jsval) (cells : list Gateway.cell) :
  Gateway.forEach records [] = inr cells ->
  (length cells <= 2 * length (List.filter Gateway.is_object records))%nat
  /\ Forall (fun c => exists r, In r records /\ cell_of_record r c) cells.
Proof.
  revert cells. induction records as [|r records IH]; intros cells Hrun.
  - inversion Hrun. split; [cbn; lia|constructor].
  - cbn [Gateway.forEach] in Hrun.
    destruct (NormalisationFacts.expand_cases r)
      as [[_ [e He]] | [_ (group & Hexp & Hlen & Hprov)]].
    + rewrite (He []) in Hrun. discriminate.
    + rewrite (Hexp []) in Hrun. cbn [Gateway.bind app] in Hrun.
      rewrite NormalisationFacts.forEach_acc in Hrun.
      destruct (Gateway.forEach records []) as [e|rest]; [discriminate|].
      inversion Hrun; subst cells. destruct (IH rest eq_refl) as [Hn Hp].
      split.
      * rewrite length_app. cbn [List.filter].
        destruct (Gateway.is_object r); cbn [length]; lia.
      * apply Forall_app. split.
        -- eapply List.Forall_impl; [|exact Hprov].
           intros c Hc. exists r. split; [now left|exact Hc].
        -- eapply List.Forall_impl; [|exact Hp].
           intros c (r' & Hin & Hc). exists r'. split; [now right|exact Hc].
Qed.

(** X3. When a payload of the expected shape normalises, it yields at most
    two cells per object record, and elements that are not objects (numbers,
    strings, booleans, nested lists) yield none. *)
Theorem transform_at_most_two_per_record
    (data : Gateway.jsval) (records : list Gateway.jsval) (cells : list Gateway.cell) :
  Gateway.payload_records data = Some records ->
  Gateway.transform data = inr cells ->
  (length cells <= 2 * length (List.filter Gateway.is_object records))%nat.
Proof.
  intros Hdata Hrun. rewrite (GatewayFacts.transform_records _ _ Hdata) in Hrun.
  now apply forEach_cells.
Qed.

Lemma transform_at_most_two_per_record_witness :
  (2 <= 2 * length (List.filter Gateway.is_object
                                [Gateway.Number 7; Samples.bothHazardsRecord]))%nat.
Proof.
  apply (transform_at_most_two_per_record
           (Gateway.Array [Gateway.Number 7; Samples.bothHazardsRecord])
           [Gateway.Number 7; Samples.bothHazardsRecord]
           [ {| Gateway.bounds := Gateway.field "bounds" Samples.bothHazardsRecord;
                Gateway.cal_type := Gateway.Str "flood";
                Gateway.risk_percentage := Gateway.Number 55;
                Gateway.updated_at := Gateway.Str "2025-01-01T00:00:00Z" |};
             {| Gateway.bounds := Gateway.field "bounds" Samples.bothHazardsRecord;
                Gateway.cal_type := Gateway.Str "landslide";
                Gateway.risk_percentage := Gateway.Number 12;
                Gateway.updated_at := Gateway.Str "2025-01-01T00:00:00Z" |} ]).
  - reflexivity.
  - reflexivity.
Defined.

(** X4. Every normalised cell comes from one hazard field of one record of
    the payload: it has that record's [bounds], and its [cal_type],
    [risk_percentage] and [updated_at] are the fields of that sub-record (the
    type is the sub-record's own [cal_type], not the name of the field it was
    found under). *)
Theorem transform_cells_provenance
    (data : Gateway.jsval) (records : list Gateway.jsval) (cells : list Gateway.cell) :
  Gateway.payload_records data = Some records ->
  Gateway.transform data = inr cells ->
  Forall (fun c => exists r, In r records /\ cell_of_record r c) cells.
Proof.
  intros Hdata Hrun. rewrite (GatewayFacts.transform_records _ _ Hdata) in Hrun.
  now apply forEach_cells.
Qed.

Lemma transform_cells_provenance_witness :
  Forall (fun c => exists r, In r Samples.sampleRecords /\ cell_of_record r c)
    [ {| Gateway.bounds := Gateway.field "bounds" Samples.imphalWestRecord;
         Gateway.cal_type := Gateway.Str "landslide";
         Gateway.risk_percentage := Gateway.Number 72;
         Gateway.updated_at := Gateway.Str "2025-01-01T00:00:00Z" |};
      {| Gateway.bounds := Gateway.field "bounds" Samples.bothHazardsRecord;
         Gateway.cal_type := Gateway.Str "flood";
         Gateway.risk_percentage := Gateway.Number 55;
         Gateway.updated_at := Gateway.Str "2025-01-01T00:00:00Z" |};
      {| Gateway.bounds := Gateway.field "bounds" Samples.bothHazardsRecord;
         Gateway.cal_type := Gateway.Str "landslide";
         Gateway.risk_percentage := Gateway.Number 12;
         Gateway.updated_at := Gateway.Str "2025-01-01T00:00:00Z" |} ].
Proof.
  apply (transform_cells_provenance Samples.wrappedPayload Samples.sampleRecords).
  - reflexivity.
  - reflexivity.
Defined.

(** ** Shape of the road alerts *)

Lemma Math_max_acc (a : Z) (xs : list Z) :
  exists m,
    fold_left
      (fun acc x => match acc with NegInfinity => Num x | Num b => Num (Z.max b x) end)
      xs (Num a) = Num m
    /\ (m = a \/ In m xs)
    /\ (a <= m)%Z
    /\ Forall (fun x => (x <= m)%Z) xs.
Proof.
  revert a. induction xs as [|x xs IH]; intros a.
  - exists a. cbn. repeat split; auto with zarith.
  - cbn [fold_left]. destruct (IH (Z.max a x)) as (m & Hm & Hin & Hle & Hall).
    exists m. split; [exact Hm|]. repeat split.
    + destruct Hin as [-> | Hin]; [|right; now right].
      destruct (Z.max_spec a x) as [[_ ->] | [_ ->]]; [right; now left|now left].
    + lia.
    + constructor; [lia|exact Hall].
Qed.

(** [Math.max] of a non-empty list is one of its elements and bounds them
    all. *)
Lemma Math_max_nonempty (x : Z) (xs : list Z) :
  exists m,
    Math_max (x :: xs) = Num m /\ In m (x :: xs) /\ Forall (fun y => (y <= m)%Z) (x :: xs).
Proof.
  unfold Math_max. cbn [fold_left].
  destruct (Math_max_acc x xs) as (m & Hm & Hin & Hle & Hall).
  exists m. split; [exact Hm|]. split.
  - destruct Hin as [-> | Hin]; [now left|now right].
  - constructor; assumption.
Qed.

(** Every alert is built from one non-empty band of the cells that reach
    the threshold. *)
Lemma alert_shape (riskCells : list RiskCell) (calamityType : string) (a : RoadAlert) :
  In a (detectRoadIntersections riskCells calamityType) ->
  exists (band : RiskCell -> bool) (first : RiskCell) (rest : list RiskCell),
    List.filter band (List.filter (fun cell => (risk_percentage cell >=? 30)%Z) riskCells)
    = first :: rest
    /\ cells a = first :: rest
    /\ severity a = Math_max (map risk_percentage (first :: rest)).
Proof.
  unfold detectRoadIntersections.
  set (high := List.filter _ riskCells).
  destruct (length high =? 0)%nat; [intros []|].
  destruct (String.eqb calamityType CALAMITY_TYPES.LANDSLIDE);
    [|destruct (String.eqb calamityType CALAMITY_TYPES.FLOOD); [|intros []]].
  - destruct (List.filter (fun c => js_gt (minLat (bounds c)) 24.85) high)
      as [|n ns] eqn:Hn;
      destruct (List.filter
                  (fun c => js_ge (minLat (bounds c)) 24.7 && js_le (minLat (bounds c)) 24.85)
                  high) as [|c cs] eqn:Hc;
      cbn [length Nat.ltb Nat.leb push app In];
      intros H; repeat destruct H as [<- | H]; try destruct H;
      eauto 6.
  - destruct (List.filter
                (fun c => js_ge (minLat (bounds c)) 24.7 && js_le (minLat (bounds c)) 24.85)
                high) as [|c cs] eqn:Hc;
      destruct (List.filter (fun c => js_lt (minLat (bounds c)) 24.7) high)
        as [|s ss] eqn:Hs;
      cbn [length Nat.ltb Nat.leb push app In];
      intros H; repeat destruct H as [<- | H]; try destruct H;
      eauto 6.
Qed.

Lemma alert_cells_from_input_aux
    (riskCells : list RiskCell) (calamityType : string) (a : RoadAlert) :
  In a (detectRoadIntersections riskCells calamityType) ->
  exists first rest,
    cells a = first :: rest
    /\ severity a = Math_max (map risk_percentage (first :: rest))
    /\ forall c, In c (cells a) -> (30 <= risk_percentage c)%Z.
Proof.
  intros Hin.
  destruct (alert_shape _ _ _ Hin) as (band & first & rest & Hband & Hcells & Hsev).
  exists first, rest. repeat split; [exact Hcells|exact Hsev|].
  intros c Hc. rewrite Hcells, <- Hband in Hc.
  apply filter_In in Hc as [Hc _]. apply filter_In in Hc as [_ Hrisk].
  now apply Z.geb_le in Hrisk.
Qed.

(** X5. An alert is never empty and never invents cells: each alert lists at
    least one cell, and every cell it lists is one of the cells passed in,
    with a risk of at least 30. *)
Theorem alert_cells_from_input
    (riskCells : list RiskCell) (calamityType : string) (a : RoadAlert) :
  In a (detectRoadIntersections riskCells calamityType) ->
  cells a <> []
  /\ forall c, In c (cells a) -> In c riskCells /\ (30 <= risk_percentage c)%Z.
Proof.
  intros Hin.
  destruct (alert_shape _ _ _ Hin) as (band & first & rest & Hband & Hcells & _).
  rewrite Hcells. split; [discriminate|].
  intros c Hc. rewrite <- Hband in Hc.
  apply filter_In in Hc as [Hc _]. apply filter_In in Hc as [Hc Hrisk].
  split; [exact Hc|]. apply Z.geb_le in Hrisk. exact Hrisk.
Qed.

Lemma alert_cells_from_input_witness :
  cells Scenarios.northAlert <> []
  /\ forall c, In c (cells Scenarios.northAlert) ->
               In c [Scenarios.northCell; Scenarios.centralCell]
               /\ (30 <= risk_percentage c)%Z.
Proof.
  apply (alert_cells_from_input [Scenarios.northCell; Scenarios.centralCell]
           CALAMITY_TYPES.LANDSLIDE Scenarios.northAlert).
  left. reflexivity.
Defined.

(** X6. The severity of an alert is a number (never [-Infinity]): it is the
    risk of one of the alert's cells, no cell of the alert exceeds it, and it
    is at least 30. *)
Theorem alert_severity_is_band_maximum
    (riskCells : list RiskCell) (calamityType : string) (a : RoadAlert) :
  In a (detectRoadIntersections riskCells calamityType) ->
  exists m,
    severity a = Num m
    /\ (exists c, In c (cells a) /\ risk_percentage c = m)
    /\ (forall c, In c (cells a) -> (risk_percentage c <= m)%Z)
    /\ (30 <= m)%Z.
Proof.
  intros Hin.
  destruct (alert_cells_from_input_aux riskCells calamityType a Hin)
    as (first & rest & Hcells & Hsev & Hrisk).
  destruct (Math_max_nonempty (risk_percentage first) (map risk_percentage rest))
    as (m & Hm & Hmem & Hall).
  change (risk_percentage first :: map risk_percentage rest)
    with (map risk_percentage (first :: rest)) in *.
  exists m. rewrite Hsev, Hcells. split; [exact Hm|].
  apply in_map_iff in Hmem as (c & Hc & Hcin).
  split; [exists c; auto|]. split.
  - intros c' Hc'. rewrite List.Forall_forall in Hall. apply Hall.
    apply in_map_iff. eauto.
  - rewrite <- Hc. apply Hrisk. rewrite Hcells. exact Hcin.
Qed.

Lemma alert_severity_is_band_maximum_witness :
  exists m,
    severity Scenarios.northAlert = Num m
    /\ (exists c, In c (cells Scenarios.northAlert) /\ risk_percentage c = m)
    /\ (forall c, In c (cells Scenarios.northAlert) -> (risk_percentage c <= m)%Z)
    /\ (30 <= m)%Z.
Proof.
  apply (alert_severity_is_band_maximum [Scenarios.northCell; Scenarios.centralCell]
           CALAMITY_TYPES.LANDSLIDE Scenarios.northAlert).
  left. reflexivity.
Defined.

(** X7. No alert is raised when every cell is below 30, or when the
    calamity type is neither ['landslide'] nor ['flood'] (whatever the
    cells). *)
Theorem no_alerts_when_quiet (riskCells : list RiskCell) (calamityType : string) :
  Forall (fun c => (risk_percentage c < 30)%Z) riskCells
  \/ (calamityType <> CALAMITY_TYPES.LANDSLIDE /\ calamityType <> CALAMITY_TYPES.FLOOD) ->
  detectRoadIntersections riskCells calamityType = [].
Proof.
  intros [Hlow | [Hl Hf]]; unfold detectRoadIntersections.
  - assert (Hnone : List.filter (fun cell => (risk_percentage cell >=? 30)%Z) riskCells = []).
    { induction Hlow as [|c cs Hc _ IH]; [reflexivity|].
      cbn [List.filter]. destruct (Z.geb_spec (risk_percentage c) 30); [lia|exact IH]. }
    now rewrite Hnone.
  - apply String.eqb_neq in Hl, Hf. rewrite Hl, Hf.
    now destruct (length _ =? 0)%nat.
Qed.

Lemma no_alerts_when_quiet_witness :
  detectRoadIntersections [Scenarios.northCell; Scenarios.centralCell] "earthquake" = [].
Proof.
  apply (no_alerts_when_quiet [Scenarios.northCell; Scenarios.centralCell] "earthquake").
  right. split; discriminate.
Defined.

(** X8. A call raises at most two alerts, their ids are pairwise distinct
    (they serve as list keys), and the ids are those of the calamity type:
    the highway and ring-road alerts for landslides, the valley and lakeside
    alerts otherwise. *)
Theorem alerts_at_most_two_distinct (riskCells : list RiskCell) (calamityType : string) :
  let alerts := detectRoadIntersections riskCells calamityType in
  (length alerts <= 2)%nat
  /\ List.NoDup (map id alerts)
  /\ incl (map id alerts)
          (if String.eqb calamityType CALAMITY_TYPES.LANDSLIDE
           then ["nh2-north"; "imphal-central"]
           else ["imphal-valley"; "loktak-roads"]).
Proof.
  cbv zeta. unfold detectRoadIntersections.
  set (high := List.filter _ riskCells).
  destruct (length high =? 0)%nat;
    [cbn; repeat split; [lia|constructor|intros x []]|].
  destruct (String.eqb calamityType CALAMITY_TYPES.LANDSLIDE);
    [|destruct (String.eqb calamityType CALAMITY_TYPES.FLOOD)];
    repeat match goal with
      | |- context [List.filter ?f high] =>
          let l := fresh "band" in
          let H := fresh "Hband" in
          destruct (List.filter f high) as [|? l] eqn:H
      end;
    cbn [length Nat.ltb Nat.leb push app map id];
    (split; [lia|]);
    (split; [repeat constructor; cbn [In]; intuition discriminate|]);
    intros x; cbn [In]; intuition.
Qed.

(** ** Risk classes across the page *)

(** X9. For every filtered cell list whose cells each have a
    [risk_percentage] that converts to a number other than [NaN], the three
    counters of the header count exactly the cells that [getRiskLevel]
    labels High, Moderate and Low, and the popup of a cell shows the
    high-risk (moderate-risk) warning box exactly when its label is High
    (Moderate). *)
Theorem stats_agree_with_labels
    (ToNumberOther : Gateway.jsval -> Gateway.Try float)
    (filteredCells : list Gateway.cell) :
  Forall (Untyped.numeric ToNumberOther) filteredCells ->
  exists s,
    Untyped.stats ToNumberOther filteredCells = inr s
    /\ highRisk s
       = length (List.filter
                   (fun c => String.eqb (Untyped.labelOf ToNumberOther c) "High Risk")
                   filteredCells)
    /\ moderateRisk s
       = length (List.filter
                   (fun c => String.eqb (Untyped.labelOf ToNumberOther c) "Moderate Risk")
                   filteredCells)
    /\ lowRisk s
       = length (List.filter
                   (fun c => String.eqb (Untyped.labelOf ToNumberOther c) "Low Risk")
                   filteredCells)
    /\ Forall (fun c =>
                 Untyped.showsHighRiskBox ToNumberOther c
                 = inr (String.eqb (Untyped.labelOf ToNumberOther c) "High Risk")
                 /\ Untyped.showsModerateRiskBox ToNumberOther c
                    = inr (String.eqb (Untyped.labelOf ToNumberOther c) "Moderate Risk"))
              filteredCells.
Proof.
  intros Hnum. rewrite List.Forall_forall in Hnum.
  eexists. split; [apply UntypedFacts.numeric_stats, List.Forall_forall, Hnum|].
  cbn [highRisk moderateRisk lowRisk]. repeat split.
  - f_equal. apply filter_ext_in. intros c Hc.
    apply (UntypedFacts.numeric_label_tests ToNumberOther c (Hnum c Hc)).
  - f_equal. apply filter_ext_in. intros c Hc.
    apply (UntypedFacts.numeric_label_tests ToNumberOther c (Hnum c Hc)).
  - f_equal. apply filter_ext_in. intros c Hc.
    apply (UntypedFacts.numeric_label_tests ToNumberOther c (Hnum c Hc)).
  - apply List.Forall_forall. intros c Hc.
    destruct (UntypedFacts.numeric_tests ToNumberOther c (Hnum c Hc)) as (H60 & Hmod & _).
    destruct (UntypedFacts.numeric_label_tests ToNumberOther c (Hnum c Hc))
      as (L60 & Lmod & _).
    unfold Untyped.showsHighRiskBox, Untyped.showsModerateRiskBox.
    rewrite H60, Hmod, L60, Lmod. split; reflexivity.
Qed.

Lemma stats_agree_with_labels_witness :
  exists s,
    Untyped.stats Samples.noConversion Samples.numericCells = inr s
    /\ highRisk s
       = length (List.filter
                   (fun c => String.eqb (Untyped.labelOf Samples.noConversion c) "High Risk")
                   Samples.numericCells)
    /\ moderateRisk s
       = length (List.filter
                   (fun c => String.eqb (Untyped.labelOf Samples.noConversion c)
                                        "Moderate Risk")
                   Samples.numericCells)
    /\ lowRisk s
       = length (List.filter
                   (fun c => String.eqb (Untyped.labelOf Samples.noConversion c) "Low Risk")
                   Samples.numericCells)
    /\ Forall (fun c =>
                 Untyped.showsHighRiskBox Samples.noConversion c
                 = inr (String.eqb (Untyped.labelOf Samples.noConversion c) "High Risk")
                 /\ Untyped.showsModerateRiskBox Samples.noConversion c
                    = inr (String.eqb (Untyped.labelOf Samples.noConversion c)
                                      "Moderate Risk"))
              Samples.numericCells.
Proof.
  apply (stats_agree_with_labels Samples.noConversion Samples.numericCells).
  repeat constructor; eexists; split; reflexivity.
Defined.

(** Outside that domain the three do not agree: a cell whose
    [risk_percentage] is [undefined] is labelled High Risk, is counted by no
    counter and shows no warning box. *)
Example cell_without_risk_label :
  Untyped.getRiskLevel Samples.noConversion
    (Gateway.risk_percentage Samples.cellWithoutRisk) = inr "High Risk"
  /\ Untyped.showsHighRiskBox Samples.noConversion Samples.cellWithoutRisk = inr false
  /\ Untyped.showsModerateRiskBox Samples.noConversion Samples.cellWithoutRisk = inr false.
Proof. repeat split; reflexivity. Qed.

(** ** The render loop *)

Lemma commit_outsideEffects (prev : option Deps) (r : State) :
  outsideEffects (commit prev r) = outsideEffects r.
Proof.
  unfold commit, runIf, andThen, countryEffect, stateEffect, alertsEffect, andThen, nothing.
  destruct prev; split_ifs; reflexivity.
Qed.

Lemma settle_outsideEffects (fuel : nat) (prev : option Deps) (r : State) :
  outsideEffects (fst (settle fuel prev r)) = outsideEffects r.
Proof.
  revert prev r; induction fuel as [|fuel IH]; intros prev r; cbn [settle].
  - now destruct (noEffectDue prev r).
  - destruct (noEffectDue prev r); [reflexivity|].
    rewrite IH. apply commit_outsideEffects.
Qed.

Lemma rerender_outsideEffects (w : World) :
  outsideEffects (ui (rerender w)) = outsideEffects (ui w)
  /\ inflight (rerender w) = inflight w
  /\ nextRequest (rerender w) = nextRequest w.
Proof.
  unfold rerender.
  pose proof (settle_outsideEffects NESTED_UPDATE_LIMIT (committed w) (ui w)) as H.
  destruct (settle NESTED_UPDATE_LIMIT (committed w) (ui w)) as [r d].
  cbn in *. auto.
Qed.

(** Once the loop is at rest, more fuel changes nothing. *)
Lemma settle_enough (n : nat) :
  forall (m : nat) (prev : option Deps) (r : State),
    (n <= m)%nat ->
    snd (settle n prev r) = Some (depsOf (fst (settle n prev r))) ->
    settle m prev r = settle n prev r.
Proof.
  induction n as [|n IH]; intros m prev r Hle Hrest.
  - cbn [settle] in *.
    assert (Hdue : noEffectDue prev r = true).
    { apply noEffectDue_settled. now destruct (noEffectDue prev r). }
    rewrite Hdue. now apply settle_at_rest.
  - destruct m as [|m]; [lia|]. rewrite !settle_S in *.
    destruct (noEffectDue prev r); [reflexivity|].
    apply IH; [lia|exact Hrest].
Qed.

(** X10. The effects cannot keep each other running: from any state and any
    recorded dependencies the render loop is at rest after at most three
    commits, so its result is the same for every bound of at least three
    nested renders (the limit of 50 is never reached). *)
Theorem render_loop_settles_in_three (fuel : nat) (prev : option Deps) (r : State) :
  (3 <= fuel)%nat ->
  settle fuel prev r = settle 3 prev r
  /\ noEffectDue (snd (settle fuel prev r)) (fst (settle fuel prev r)) = true.
Proof.
  intros Hfuel.
  assert (H3 : snd (settle 3 prev r) = Some (depsOf (fst (settle 3 prev r))))
    by (apply settle_quiescent; lia).
  rewrite (settle_enough 3 fuel prev r Hfuel H3).
  split; [reflexivity|]. now apply noEffectDue_settled.
Qed.

Lemma render_loop_settles_in_three_witness :
  settle NESTED_UPDATE_LIMIT None initialState = settle 3 None initialState
  /\ noEffectDue (snd (settle NESTED_UPDATE_LIMIT None initialState))
                 (fst (settle NESTED_UPDATE_LIMIT None initialState)) = true.
Proof.
  apply (render_loop_settles_in_three NESTED_UPDATE_LIMIT None initialState).
  unfold NESTED_UPDATE_LIMIT. lia.
Defined.

(** ** What navigation leaves alone *)

(** X11. Changing or clearing the country, the state or the district never
    changes the calamity mode, the last-updated time or the selected
    (highlighted) road alert: a time stamp and a highlight survive the
    clearing of the data they belong to. *)
Theorem navigation_keeps_mode_stamp_highlight (w : World) (e : Event) :
  isNavigation e = true ->
  calamityMode (ui (step w e)) = calamityMode (ui w)
  /\ lastUpdated (ui (step w e)) = lastUpdated (ui w)
  /\ selectedRoadAlert (ui (step w e)) = selectedRoadAlert (ui w).
Proof.
  intros Hnav. unfold step.
  destruct (rerender_outsideEffects (handle w e)) as [Hout _].
  assert (Hhandle : calamityMode (ui (handle w e)) = calamityMode (ui w)
                    /\ lastUpdated (ui (handle w e)) = lastUpdated (ui w)
                    /\ selectedRoadAlert (ui (handle w e)) = selectedRoadAlert (ui w)).
  { destruct e; try discriminate; cbn [handle withUi ui]; auto.
    unfold handleDistrictChange. destruct (negb _); cbn; auto. }
  unfold outsideEffects in Hout. inversion Hout as [[Hc Hm Hl Hlo He Hs]].
  rewrite Hm, Hl, Hs. exact Hhandle.
Qed.

Lemma navigation_keeps_mode_stamp_highlight_witness :
  let w := run mount Scenarios.bothSettle in
  calamityMode (ui (step w (CountryChange ""))) = calamityMode (ui w)
  /\ lastUpdated (ui (step w (CountryChange ""))) = lastUpdated (ui w)
  /\ selectedRoadAlert (ui (step w (CountryChange "")))
     = selectedRoadAlert (ui w).
Proof.
  apply (navigation_keeps_mode_stamp_highlight (run mount Scenarios.bothSettle)
           (CountryChange "")).
  reflexivity.
Defined.

(** ** The loading flag *)

Lemma step_loadingHasRequest (w : World) (e : Event) :
  loadingHasRequest w -> loadingHasRequest (step w e).
Proof.
  intros Hinv. unfold loadingHasRequest, step.
  destruct (rerender_outsideEffects (handle w e)) as (Hout & -> & _).
  unfold outsideEffects in Hout. inversion Hout as [[Hc Hm Hl Hlo He Hs]].
  rewrite Hlo. clear Hout Hc Hm Hl Hlo He Hs.
  destruct e; cbn [handle withUi ui inflight]; try exact Hinv.
  - unfold handleDistrictChange. destruct (negb _); cbn [ui inflight].
    + intros _. apply insert_non_empty.
    + exact Hinv.
  - unfold handleRoadAlertClick, andThen, nothing.
    destruct (cells alert); exact Hinv.
  - destruct (inflight w !! request) as [districtParam|]; [|exact Hinv].
    cbn [ui]. unfold fetchDisasterData_finish, andThen, nothing.
    destruct result; [destruct (MANIPUR_DISTRICTS !! districtParam)|]; discriminate.
Qed.

(** X12. Whatever events arrive and in whatever order, the loading
    indicator is on only while some request is in flight. *)
Theorem loading_only_while_in_flight (events : list Event) :
  loading (ui (run mount events)) = true -> inflight (run mount events) <> ∅.
Proof.
  change (loadingHasRequest (run mount events)).
  assert (Hmount : loadingHasRequest mount) by (intros H; discriminate H).
  revert Hmount. generalize mount.
  induction events as [|e events IH]; intros w Hw; [exact Hw|].
  cbn [run fold_left]. apply IH. now apply step_loadingHasRequest.
Qed.

Lemma loading_only_while_in_flight_witness :
  inflight (run mount Scenarios.twoInFlight) <> ∅.
Proof.
  apply (loading_only_while_in_flight Scenarios.twoInFlight).
  reflexivity.
Defined.

(** ** Events that keep country and state *)

Lemma handle_committed (w : World) (e : Event) : committed (handle w e) = committed w.
Proof.
  destruct e; cbn [handle withUi committed]; try reflexivity.
  - unfold handleDistrictChange. now destruct (negb _).
  - now destruct (inflight w !! request).
Qed.

(** With country and state as recorded, the loop can only refresh the
    alerts. *)
Lemma rerender_alerts_only (w : World) :
  (exists d, committed w = Some d
             /\ countryDeps d = selectedCountry (ui w)
             /\ stateDeps d = (selectedState (ui w), selectedCountry (ui w))) ->
  exists alerts, ui (rerender w) = setRoadAlerts alerts (ui w).
Proof.
  intros (d & Hd & Hc & Hs). unfold rerender. rewrite Hd.
  destruct (settle_alerts_only NESTED_UPDATE_LIMIT d (ui w) Hc Hs) as [alerts H].
  destruct (settle NESTED_UPDATE_LIMIT (Some d) (ui w)) as [r d'].
  exists alerts. exact H.
Qed.

(** With country and state as recorded and nothing on display, the loop
    changes nothing. *)
Lemma rerender_cleared (w : World) :
  (exists d, committed w = Some d
             /\ countryDeps d = selectedCountry (ui w)
             /\ stateDeps d = (selectedState (ui w), selectedCountry (ui w))) ->
  riskCells (ui w) = [] ->
  roadAlerts (ui w) = [] ->
  ui (rerender w) = ui w.
Proof.
  intros (d & Hd & Hc & Hs) Hcells Halerts. unfold rerender. rewrite Hd.
  pose proof (settle_cleared NESTED_UPDATE_LIMIT d (ui w) Hc (or_introl Hs) Hcells Halerts)
    as H.
  destruct (settle NESTED_UPDATE_LIMIT (Some d) (ui w)) as [r d'].
  exact H.
Qed.

Lemma step_keeps_selection (w : World) (e : Event) :
  settled w ->
  selectedCountry (ui (handle w e)) = selectedCountry (ui w) ->
  selectedState (ui (handle w e)) = selectedState (ui w) ->
  exists alerts, ui (step w e) = setRoadAlerts alerts (ui (handle w e)).
Proof.
  intros Hrest Hc Hs. unfold step. apply rerender_alerts_only.
  exists (depsOf (ui w)). rewrite handle_committed.
  split; [exact Hrest|]. cbn [depsOf countryDeps stateDeps]. now rewrite Hc, Hs.
Qed.

(** ** Selecting a district *)

(** The keys of the district table are plain names: not empty, and left
    as they are by the removal of white space and by a round trip through
    their label. *)
Lemma district_key_plain (district : string) :
  is_Some (MANIPUR_DISTRICTS !! district) ->
  district <> ""
  /\ removeWhitespace district = district
  /\ removeWhitespace (districtLabel district) = district.
Proof.
  intros [view Hview]. unfold MANIPUR_DISTRICTS in Hview.
  apply elem_of_list_to_map_2 in Hview.
  repeat (apply elem_of_cons in Hview as [Hview | Hview];
          [injection Hview as -> _; repeat split; [discriminate|reflexivity..]|]).
  now apply elem_of_nil in Hview.
Qed.

(** X13. Selecting a district of the table starts its request and shows
    nothing yet: the district is recorded, loading is on, the error, the
    cells and the alerts are cleared, a request whose parameter is the
    district key is registered, and the map view stays where it was (it
    moves only when the data arrive). *)
Theorem district_selected_starts_request (w : World) (district : string) :
  settled w ->
  is_Some (MANIPUR_DISTRICTS !! district) ->
  let w' := step w (DistrictChange district) in
  selection w' = (selectedCountry (ui w), selectedState (ui w), district)
  /\ loading (ui w') = true
  /\ error (ui w') = None
  /\ riskCells (ui w') = []
  /\ roadAlerts (ui w') = []
  /\ viewState w' = viewState w
  /\ inflight w' = <[nextRequest w := district]> (inflight w).
Proof.
  intros Hrest Hkey w'. subst w'. unfold step.
  destruct (district_key_plain district Hkey) as (Hd & Hplain & _).
  apply String.eqb_neq in Hd.
  assert (Hhandle : handle w (DistrictChange district)
                    = {| ui := (setSelectedDistrict district >>> fetchDisasterData_start) (ui w);
                         committed := committed w;
                         inflight := <[nextRequest w := district]> (inflight w);
                         nextRequest := S (nextRequest w) |}).
  { cbn [handle]. unfold handleDistrictChange. now rewrite Hd, Hplain. }
  rewrite Hhandle.
  destruct (rerender_outsideEffects
              {| ui := (setSelectedDistrict district >>> fetchDisasterData_start) (ui w);
                 committed := committed w;
                 inflight := <[nextRequest w := district]> (inflight w);
                 nextRequest := S (nextRequest w) |}) as (_ & Hin & _).
  rewrite Hin. cbn [inflight].
  unfold selection, viewState. rewrite rerender_cleared; [repeat split|..]; try reflexivity.
  exists (depsOf (ui w)). split; [exact Hrest|]. split; reflexivity.
Qed.

Lemma district_selected_starts_request_witness :
  let w := run mount Scenarios.toManipur in
  let w' := step w (DistrictChange "ImphalWest") in
  selection w' = (selectedCountry (ui w), selectedState (ui w), "ImphalWest")
  /\ loading (ui w') = true
  /\ error (ui w') = None
  /\ riskCells (ui w') = []
  /\ roadAlerts (ui w') = []
  /\ viewState w' = viewState w
  /\ inflight w' = <[nextRequest w := "ImphalWest"]> (inflight w).
Proof.
  apply (district_selected_starts_request (run mount Scenarios.toManipur) "ImphalWest").
  - reflexivity.
  - vm_compute. eauto.
Defined.

(** ** The end of a request *)

(** X14. When a request made for a district of the table succeeds, the
    map moves to the view of that district; the district selected at that
    moment plays no part. *)
Theorem fetch_fulfilled_moves_view
    (w : World) (request : nat) (districtParam : string) (view : MapView)
    (transformedCells : list RiskCell) (now : Z) :
  settled w ->
  inflight w !! request = Some districtParam ->
  MANIPUR_DISTRICTS !! districtParam = Some view ->
  let w' := step w (FetchSettled request (Fulfilled transformedCells) now) in
  viewState w' = (center view, zoom view).
Proof.
  intros Hrest Hreq Hview w'. subst w'.
  destruct (step_keeps_selection w (FetchSettled request (Fulfilled transformedCells) now))
    as [alerts Hui]; try assumption.
  - cbn [handle]. rewrite Hreq. cbn [ui]. unfold fetchDisasterData_finish, andThen, nothing.
    now rewrite Hview.
  - cbn [handle]. rewrite Hreq. cbn [ui]. unfold fetchDisasterData_finish, andThen, nothing.
    now rewrite Hview.
  - unfold viewState. rewrite Hui. cbn [handle]. rewrite Hreq. cbn [ui].
    unfold fetchDisasterData_finish, andThen, nothing.
    now rewrite Hview.
Qed.

Lemma fetch_fulfilled_moves_view_witness :
  viewState (step (run mount Scenarios.twoInFlight)
                  (FetchSettled 0 (Fulfilled [Scenarios.northCell]) 1700000000))
  = ((24.8167, 93.9167)%float, 11%Z).
Proof.
  apply (fetch_fulfilled_moves_view (run mount Scenarios.twoInFlight) 0 "ImphalWest"
           {| center := (24.8167, 93.9167)%float; zoom := 11 |}
           [Scenarios.northCell] 1700000000).
  - reflexivity.
  - reflexivity.
  - reflexivity.
Defined.

(** X15. A failed request changes two things only: the error becomes the
    fixed prefix followed by the message of the exception, and loading goes
    off.  Cells, alerts, view, selection and time stamp are as before, and
    the request is no longer in flight. *)
Theorem fetch_rejected_sets_error_only
    (w : World) (request : nat) (districtParam : string) (message : string) (now : Z) :
  settled w ->
  inflight w !! request = Some districtParam ->
  let w' := step w (FetchSettled request (Rejected message) now) in
  ui w' = setLoading false
            (setError (Some ("Failed to fetch prediction data: " ++ message)) (ui w))
  /\ inflight w' = delete request (inflight w).
Proof.
  intros Hrest Hreq w'. subst w'. unfold step. cbn [handle]. rewrite Hreq.
  rewrite rerender_at_rest; [split; reflexivity|].
  cbn [ui committed]. exact Hrest.
Qed.

Lemma fetch_rejected_sets_error_only_witness :
  let w := run mount Scenarios.twoInFlight in
  let w' := step w (FetchSettled 0 (Rejected "API error: 500") 1700000000) in
  ui w' = setLoading false
            (setError (Some ("Failed to fetch prediction data: " ++ "API error: 500")) (ui w))
  /\ inflight w' = delete 0 (inflight w).
Proof.
  apply (fetch_rejected_sets_error_only (run mount Scenarios.twoInFlight) 0 "ImphalWest"
           "API error: 500" 1700000000).
  - reflexivity.
  - reflexivity.
Defined.

(** ** Forward navigation *)

(** Selecting India from the world view: both the country effect and the
    state effect run (the state effect lists the country among its
    dependencies), the view goes to India, and district, cells and alerts
    are cleared. *)
Lemma country_selected (w : World) :
  settled w ->
  selectedCountry (ui w) = "" ->
  selectedState (ui w) = "" ->
  ui (step w (CountryChange "India"))
  = (setMapCenter (center MAP_VIEWS.india) >>>
     setMapZoom (zoom MAP_VIEWS.india) >>>
     setSelectedDistrict "" >>>
     setRiskCells [] >>>
     setRoadAlerts []) (setSelectedCountry "India" (ui w)).
Proof.
  intros Hrest Hcountry Hstate. unfold step, rerender.
  cbn [handle withUi ui committed]. rewrite Hrest.
  set (r := setSelectedCountry "India" (ui w)).
  assert (Hdue : noEffectDue (Some (depsOf (ui w))) r = false).
  { cbn. unfold sameDeps, sameCountryDeps. cbn. now rewrite Hcountry. }
  assert (Hcommit : commit (Some (depsOf (ui w))) r
                    = (setMapCenter (center MAP_VIEWS.india) >>>
                       setMapZoom (zoom MAP_VIEWS.india) >>>
                       setMapCenter (center MAP_VIEWS.india) >>>
                       setMapZoom (zoom MAP_VIEWS.india) >>>
                       setSelectedDistrict "" >>>
                       setRiskCells [] >>>
                       setRoadAlerts []) r).
  { unfold commit, runIf.
    unfold sameCountryDeps, sameStateDeps, sameAlertsDeps, stateEffect, countryEffect.
    cbn [depsOf countryDeps stateDeps alertsDeps fst snd r selectedCountry selectedState
         setSelectedCountry calamityMode].
    change (filteredCells r) with (filteredCells (ui w)).
    rewrite Hcountry, Hstate, Nat.eqb_refl, !String.eqb_refl. reflexivity. }
  unfold NESTED_UPDATE_LIMIT. rewrite settle_S, Hdue, Hcommit.
  match goal with |- context [settle ?f ?p ?r0] =>
    pose proof (settle_cleared f (depsOf r) r0) as H;
    destruct (settle f p r0) as [r' d']
  end.
  cbn [fst] in H. cbn [ui]. rewrite H by (try reflexivity; left; reflexivity).
  reflexivity.
Qed.

(** Selecting Manipur: only the state effect runs, and it only moves the
    view. *)
Lemma state_selected (w : World) :
  settled w ->
  selectedState (ui w) <> "Manipur" ->
  ui (step w (StateChange "Manipur"))
  = (setMapCenter (center MAP_VIEWS.manipur) >>>
     setMapZoom (zoom MAP_VIEWS.manipur)) (setSelectedState "Manipur" (ui w)).
Proof.
  intros Hrest Hstate. unfold step, rerender.
  cbn [handle withUi ui committed]. rewrite Hrest.
  set (r := setSelectedState "Manipur" (ui w)).
  apply String.eqb_neq in Hstate.
  assert (Hdue : noEffectDue (Some (depsOf (ui w))) r = false).
  { cbn. unfold sameDeps, sameStateDeps. cbn. rewrite Hstate.
    now rewrite andb_false_r. }
  assert (Hcommit : commit (Some (depsOf (ui w))) r
                    = (setMapCenter (center MAP_VIEWS.manipur) >>>
                       setMapZoom (zoom MAP_VIEWS.manipur)) r).
  { unfold commit, runIf.
    unfold sameCountryDeps, sameStateDeps, sameAlertsDeps, stateEffect.
    cbn [depsOf countryDeps stateDeps alertsDeps fst snd r selectedCountry selectedState
         setSelectedState calamityMode].
    change (filteredCells r) with (filteredCells (ui w)).
    rewrite Hstate, Nat.eqb_refl, !String.eqb_refl. reflexivity. }
  unfold NESTED_UPDATE_LIMIT. rewrite settle_S, Hdue, Hcommit.
  rewrite settle_at_rest; [reflexivity|].
  now apply noEffectDue_settled.
Qed.

(** X16. Selecting India from the world view moves the map to India and
    leaves no state, district, cells or alerts behind. *)
Theorem selecting_india_shows_country (w : World) :
  settled w ->
  selectedCountry (ui w) = "" ->
  selectedState (ui w) = "" ->
  let w' := step w (CountryChange "India") in
  selection w' = ("India", "", "")
  /\ viewState w' = (center MAP_VIEWS.india, zoom MAP_VIEWS.india)
  /\ riskCells (ui w') = []
  /\ roadAlerts (ui w') = [].
Proof.
  intros Hrest Hcountry Hstate w'. subst w'. unfold selection, viewState.
  rewrite (country_selected w Hrest Hcountry Hstate).
  unfold andThen. cbn. rewrite Hstate. repeat split.
Qed.

Lemma selecting_india_shows_country_witness :
  let w' := step mount (CountryChange "India") in
  selection w' = ("India", "", "")
  /\ viewState w' = (center MAP_VIEWS.india, zoom MAP_VIEWS.india)
  /\ riskCells (ui w') = []
  /\ roadAlerts (ui w') = [].
Proof.
  apply (selecting_india_shows_country mount); reflexivity.
Defined.

(** ** The selection stays well nested *)

Lemma same_value_keeps_selection (w : World) (e : Event) :
  settled w ->
  selectedCountry (ui (handle w e)) = selectedCountry (ui w) ->
  selectedState (ui (handle w e)) = selectedState (ui w) ->
  selection (step w e)
  = (selectedCountry (ui w), selectedState (ui w), selectedDistrict (ui (handle w e))).
Proof.
  intros Hrest Hc Hs.
  destruct (step_keeps_selection w e Hrest Hc Hs) as [alerts Hui].
  unfold selection. rewrite Hui. cbn. now rewrite Hc, Hs.
Qed.

Lemma step_wellNested (w : World) (e : Event) :
  settled w -> wellNested w -> offered w e -> wellNested (step w e).
Proof.
  intros Hrest Hnest Hoff.
  assert (Hkeep : selectedCountry (ui (handle w e)) = selectedCountry (ui w) ->
                  selectedState (ui (handle w e)) = selectedState (ui w) ->
                  selectedDistrict (ui (handle w e)) = selectedDistrict (ui w) ->
                  wellNested (step w e)).
  { intros Hc Hs Hd. unfold wellNested.
    rewrite (same_value_keeps_selection w e Hrest Hc Hs), Hd. exact Hnest. }
  destruct e as [value|value|value|mode|alert|request result now].
  - (* country *)
    destruct Hoff as [-> | ->].
    + destruct (String.eqb_spec (selectedCountry (ui w)) "") as [Heq|Hne].
      * apply Hkeep; cbn; auto.
      * left. now destruct (country_cleared w Hrest Hne) as (-> & _).
    + destruct Hnest as [Hsel | [Hsel | (d & Hsel & Hd)]];
        unfold selection in Hsel; injection Hsel as Hc Hs Hdi.
      * right; left. unfold selection.
        rewrite (country_selected w Hrest Hc Hs). cbn. now rewrite Hs.
      * apply Hkeep; cbn; auto.
      * apply Hkeep; cbn; auto.
  - (* state *)
    destruct Hoff as [Hcountry [-> | ->]].
    + destruct Hnest as [Hsel | [Hsel | (d & Hsel & Hd)]];
        unfold selection in Hsel; injection Hsel as Hc Hs Hdi.
      * now destruct Hcountry.
      * apply Hkeep; cbn; auto.
      * right; left.
        assert (Hne : selectedState (ui w) <> "") by (rewrite Hs; discriminate).
        now destruct (state_cleared w Hrest Hc Hne) as (-> & _).
    + destruct Hnest as [Hsel | [Hsel | (d & Hsel & Hd)]];
        unfold selection in Hsel; injection Hsel as Hc Hs Hdi.
      * now destruct Hcountry.
      * right; right. exists "". split; [|now left].
        assert (Hne : selectedState (ui w) <> "Manipur") by (rewrite Hs; discriminate).
        unfold selection. rewrite (state_selected w Hrest Hne). cbn.
        now rewrite Hc, Hdi.
      * apply Hkeep; cbn; auto.
  - (* district *)
    destruct Hoff as [Hstate Hvalue].
    destruct Hnest as [Hsel | [Hsel | (d & Hsel & Hd)]];
      unfold selection in Hsel; injection Hsel as Hc Hs Hdi;
      try (now destruct Hstate).
    right; right. exists value. split; [|exact Hvalue].
    assert (Hhc : selectedCountry (ui (handle w (DistrictChange value)))
                  = selectedCountry (ui w)).
    { cbn [handle]. unfold handleDistrictChange. now destruct (negb _). }
    assert (Hhs : selectedState (ui (handle w (DistrictChange value)))
                  = selectedState (ui w)).
    { cbn [handle]. unfold handleDistrictChange. now destruct (negb _). }
    rewrite (same_value_keeps_selection w _ Hrest Hhc Hhs), Hc, Hs.
    cbn [handle]. unfold handleDistrictChange. now destruct (negb _).
  - apply Hkeep; reflexivity.
  - apply Hkeep; cbn [handle withUi ui]; unfold handleRoadAlertClick, andThen, nothing;
      now destruct (cells alert).
  - apply Hkeep; cbn [handle]; destruct (inflight w !! request) as [dp|]; try reflexivity;
      cbn [ui]; unfold fetchDisasterData_finish, andThen, nothing;
      (destruct result; [destruct (MANIPUR_DISTRICTS !! dp)|]); reflexivity.
Qed.

(** X17. In every state the page can reach, the selection is well nested:
    a state is selected only under a country and a district only under a
    state; more precisely the selection is empty, India alone, or India and
    Manipur with no district or a district of the table. *)
Theorem reachable_wellNested (w : World) : reachable w -> wellNested w.
Proof.
  induction 1 as [|w e Hreach IH Hoff].
  - left. reflexivity.
  - apply step_wellNested; [now apply reachable_settled|exact IH|exact Hoff].
Qed.

Lemma reachable_wellNested_witness :
  wellNested (run mount (Scenarios.toManipur ++ [CountryChange ""])).
Proof.
  apply (reachable_wellNested (run mount (Scenarios.toManipur ++ [CountryChange ""]))).
  apply run_reachable; [constructor|].
  cbn [Scenarios.toManipur app offered_all].
  repeat (split; [offered_now|]). exact I.
Defined.

(** ** Backward navigation, as the code performs it *)

(** X18. Clearing the district keeps country and state, clears cells and
    alerts and puts the map on Manipur. *)
Theorem clearing_district_resets_to_state (w : World) :
  settled w ->
  let w' := step w (DistrictChange "") in
  selection w' = (selectedCountry (ui w), selectedState (ui w), "")
  /\ riskCells (ui w') = []
  /\ roadAlerts (ui w') = []
  /\ viewState w' = (center MAP_VIEWS.manipur, zoom MAP_VIEWS.manipur).
Proof. exact (district_cleared w). Qed.

Lemma clearing_district_resets_to_state_witness :
  let w := run mount Scenarios.bothSettle in
  let w' := step w (DistrictChange "") in
  selection w' = (selectedCountry (ui w), selectedState (ui w), "")
  /\ riskCells (ui w') = []
  /\ roadAlerts (ui w') = []
  /\ viewState w' = (center MAP_VIEWS.manipur, zoom MAP_VIEWS.manipur).
Proof.
  apply (clearing_district_resets_to_state (run mount Scenarios.bothSettle)).
  reflexivity.
Defined.

(** X19. Clearing the state while India is selected clears the district,
    the cells and the alerts and puts the map on India. *)
Theorem clearing_state_resets_to_country (w : World) :
  settled w ->
  selectedCountry (ui w) = "India" ->
  selectedState (ui w) <> "" ->
  let w' := step w (StateChange "") in
  selection w' = ("India", "", "")
  /\ riskCells (ui w') = []
  /\ roadAlerts (ui w') = []
  /\ viewState w' = (center MAP_VIEWS.india, zoom MAP_VIEWS.india).
Proof. exact (state_cleared w). Qed.

Lemma clearing_state_resets_to_country_witness :
  let w' := step (run mount Scenarios.bothSettle) (StateChange "") in
  selection w' = ("India", "", "")
  /\ riskCells (ui w') = []
  /\ roadAlerts (ui w') = []
  /\ viewState w' = (center MAP_VIEWS.india, zoom MAP_VIEWS.india).
Proof.
  apply (clearing_state_resets_to_country (run mount Scenarios.bothSettle)).
  - reflexivity.
  - reflexivity.
  - vm_compute. discriminate.
Defined.

(** X20. Clearing the country always clears state, district, cells and
    alerts.  The map goes to the world view when the state selected before
    was not Manipur; when it was, the state effect runs in the same commit
    and the map is left on Manipur. *)
Theorem clearing_country_clears_selection (w : World) :
  settled w ->
  selectedCountry (ui w) <> "" ->
  let w' := step w (CountryChange "") in
  selection w' = ("", "", "")
  /\ riskCells (ui w') = []
  /\ roadAlerts (ui w') = []
  /\ viewState w'
     = if String.eqb (selectedState (ui w)) "Manipur"
       then (center MAP_VIEWS.manipur, zoom MAP_VIEWS.manipur)
       else (center MAP_VIEWS.world, zoom MAP_VIEWS.world).
Proof. exact (country_cleared w). Qed.

Lemma clearing_country_clears_selection_witness :
  let w := step mount (CountryChange "India") in
  let w' := step w (CountryChange "") in
  selection w' = ("", "", "")
  /\ riskCells (ui w') = []
  /\ roadAlerts (ui w') = []
  /\ viewState w'
     = if String.eqb (selectedState (ui w)) "Manipur"
       then (center MAP_VIEWS.manipur, zoom MAP_VIEWS.manipur)
       else (center MAP_VIEWS.world, zoom MAP_VIEWS.world).
Proof.
  apply (clearing_country_clears_selection (step mount (CountryChange "India"))).
  - reflexivity.
  - vm_compute. discriminate.
Defined.

(** ** When the alerts are regenerated *)

Lemma modeClick_alerts_fresh_witness :
  alerts_fresh (step (run mount Scenarios.bothSettle) (ModeClick CALAMITY_TYPES.FLOOD)).
Proof.
  apply (modeClick_alerts_fresh (run mount Scenarios.bothSettle) CALAMITY_TYPES.FLOOD).
  - reflexivity.
  - vm_compute. discriminate.
Defined.

Lemma fetchSettled_alerts_fresh_witness :
  alerts_fresh
    (step (run mount Scenarios.twoInFlight)
          (FetchSettled 0 (Fulfilled [Scenarios.northCell]) 1700000000)).
Proof.
  apply (fetchSettled_alerts_fresh (run mount Scenarios.twoInFlight) 0 "ImphalWest"
           [Scenarios.northCell] 1700000000).
  - reflexivity.
  - reflexivity.
  - vm_compute. discriminate.
Defined.

(** ** Clicking and highlighting *)

(** X23. Clicking any alert that [detectRoadIntersections] produced from a
    list of cells always moves the map: the centre becomes
    ((minLat + maxLat) / 2, (minLon + maxLon) / 2) of the bounds of a cell
    of that list whose risk is at least 30 (the first cell of the alert's
    band), and the zoom becomes 12. *)
Theorem generated_alert_click_centres_on_input_cell
    (w : World) (riskCells : list RiskCell) (calamityType : string) (alert : RoadAlert) :
  settled w ->
  In alert (detectRoadIntersections riskCells calamityType) ->
  exists cell,
    In cell riskCells
    /\ (30 <= risk_percentage cell)%Z
    /\ mapCenter (ui (step w (RoadAlertClick alert)))
       = (((minLat (bounds cell) + maxLat (bounds cell)) / 2)%float,
          ((minLon (bounds cell) + maxLon (bounds cell)) / 2)%float)
    /\ mapZoom (ui (step w (RoadAlertClick alert))) = 12%Z.
Proof.
  intros Hrest Hin.
  destruct (alert_shape _ _ _ Hin) as (band & first & rest & Hband & Hcells & _).
  assert (Hfirst : In first (List.filter band
                    (List.filter (fun cell => (risk_percentage cell >=? 30)%Z) riskCells)))
    by (rewrite Hband; now left).
  apply filter_In in Hfirst as [Hfirst _]. apply filter_In in Hfirst as [Hmem Hrisk].
  exists first. split; [exact Hmem|]. split; [now apply Z.geb_le|].
  unfold step. rewrite rerender_at_rest.
  - cbn [handle withUi ui]. unfold handleRoadAlertClick. rewrite Hcells. split; reflexivity.
  - cbn [handle withUi ui committed]. unfold handleRoadAlertClick. rewrite Hcells.
    exact Hrest.
Qed.

Lemma generated_alert_click_centres_on_input_cell_witness :
  exists cell,
    In cell [Scenarios.northCell; Scenarios.centralCell]
    /\ (30 <= risk_percentage cell)%Z
    /\ mapCenter (ui (step mount (RoadAlertClick Scenarios.northAlert)))
       = (((minLat (bounds cell) + maxLat (bounds cell)) / 2)%float,
          ((minLon (bounds cell) + maxLon (bounds cell)) / 2)%float)
    /\ mapZoom (ui (step mount (RoadAlertClick Scenarios.northAlert))) = 12%Z.
Proof.
  apply (generated_alert_click_centres_on_input_cell mount
           [Scenarios.northCell; Scenarios.centralCell] CALAMITY_TYPES.LANDSLIDE
           Scenarios.northAlert).
  - reflexivity.
  - left. reflexivity.
Defined.

(** X24. After a click on an alert, a rectangle is highlighted exactly when
    its south-west corner ([minLat], [minLon]) equals, as numbers, that of
    one of the alert's cells: hazard type, risk and the north-east corner
    play no part, so a cell of the other hazard type on the same grid square
    is highlighted too. *)
Theorem clicked_alert_highlights_by_corner
    (w : World) (alert : RoadAlert) (cell : RiskCell) :
  isHighlighted (ui (step w (RoadAlertClick alert))) cell = true
  <-> exists c,
        In c (cells alert)
        /\ PrimFloat.eqb (minLat (bounds c)) (minLat (bounds cell)) = true
        /\ PrimFloat.eqb (minLon (bounds c)) (minLon (bounds cell)) = true.
Proof.
  unfold isHighlighted, step.
  destruct (rerender_outsideEffects (handle w (RoadAlertClick alert))) as [Hout _].
  unfold outsideEffects in Hout. injection Hout as _ _ _ _ _ Hsel.
  cbn [handle] in *. rewrite Hsel. cbn [withUi ui].
  assert (Hs : selectedRoadAlert (handleRoadAlertClick alert (ui w)) = Some alert).
  { unfold handleRoadAlertClick, andThen, nothing. now destruct (cells alert). }
  rewrite Hs, existsb_exists. split.
  - intros (c & Hc & Heq). apply andb_true_iff in Heq. eauto.
  - intros (c & Hc & H1 & H2). exists c. split; [exact Hc|]. now rewrite H1, H2.
Qed.

(** ** District names *)

Lemma removeWhitespace_trimStart (s : string) :
  removeWhitespace (trimStart s) = removeWhitespace s.
Proof.
  induction s as [|a s IH]; [reflexivity|].
  cbn [trimStart removeWhitespace]. destruct (isSpace a) eqn:Ha; [exact IH|].
  cbn [removeWhitespace]. now rewrite Ha.
Qed.

Lemma removeWhitespace_trimEnd (s : string) :
  removeWhitespace (trimEnd s) = removeWhitespace s.
Proof.
  induction s as [|a s IH]; [reflexivity|].
  cbn [trimEnd removeWhitespace].
  destruct (isSpace a) eqn:Ha; cbn [andb].
  - destruct (String.eqb_spec (trimEnd s) "") as [Heq|Hne].
    + rewrite <- IH, Heq. reflexivity.
    + cbn [removeWhitespace]. now rewrite Ha.
  - cbn [removeWhitespace]. now rewrite Ha, IH.
Qed.

Lemma removeWhitespace_spaceBeforeCapitals (s : string) :
  removeWhitespace (spaceBeforeCapitals s) = removeWhitespace s.
Proof.
  induction s as [|a s IH]; [reflexivity|].
  cbn [spaceBeforeCapitals]. destruct (isUpper a) eqn:Hu.
  - change (removeWhitespace (String " " (String a (spaceBeforeCapitals s))))
      with (removeWhitespace (String a (spaceBeforeCapitals s))).
    cbn [removeWhitespace]. now rewrite IH.
  - cbn [removeWhitespace]. now rewrite IH.
Qed.

Lemma removeWhitespace_label (district : string) :
  removeWhitespace (districtLabel district) = removeWhitespace district.
Proof.
  unfold districtLabel, trim.
  now rewrite removeWhitespace_trimEnd, removeWhitespace_trimStart,
    removeWhitespace_spaceBeforeCapitals.
Qed.

(** X25. For every key of the district table, the label shown in the
    select (a space before each capital, trimmed) gives back the key when
    its white space is removed, and the key itself is left unchanged by that
    removal: the option the user reads and the parameter of the request name
    the same district. *)
Theorem label_and_key_give_same_parameter (district : string) :
  is_Some (MANIPUR_DISTRICTS !! district) ->
  removeWhitespace (districtLabel district) = district
  /\ removeWhitespace district = district.
Proof.
  intros Hkey. destruct (district_key_plain district Hkey) as (_ & Hplain & _).
  rewrite removeWhitespace_label, Hplain. split; reflexivity.
Qed.

Lemma label_and_key_give_same_parameter_witness :
  removeWhitespace (districtLabel "ImphalWest") = "ImphalWest"
  /\ removeWhitespace "ImphalWest" = "ImphalWest".
Proof.
  apply (label_and_key_give_same_parameter "ImphalWest").
  vm_compute. eauto.
Defined.

Example imphalWest_label : districtLabel "ImphalWest" = "Imphal West".
Proof. reflexivity. Qed.

(** ** The alerts panel never shows a made-up list *)





